(** * flask-database-starter: the mutation and query handlers of parts 3 and 4

    A shallow embedding of the request handlers of [part-3/app.py] (the
    student / teacher forms) and [part-4/app.py] (the author / book JSON API),
    together with the part of the object-relational layer they rely on.

    What is modelled, and how:

    - A table is a finite map from the integer primary key to the row's other
      columns.  SQLite keeps whatever scalar it is handed, so a column holds a
      [pyval]: [None] (SQL NULL), an integer or a string.  JSON booleans,
      floats, arrays and nested objects as field values are outside the
      model.
    - The handlers are modelled on the values SQLite takes as they are sent:
      integers within the signed 64-bit range ([sqlite_int]) as keys, page
      sizes, page offsets and Integer column values, strings as String and
      Text column values ([int_value], [text_value]).  Beyond that range
      binding the value raises [OverflowError], and a value of the other
      kind is converted by the column's affinity (the string "1" sent as an
      [author_id] finds author 1 and is stored as the integer 1); neither is
      modelled.  A statement that would not hold beyond these values (the
      404 for a key no row has, the 200 for a page far out, the values a new
      row carries) takes the predicates as hypotheses on the request;
      statements about rows that exist, about the store alone, or about
      what follows from a given answer do not need them.
    - [request.get_json()] yields the handler's [data]: [None] for a body
      that is the JSON value [null], otherwise the parsed JSON object as a
      dictionary; the handlers in [Part4] take [data] as their argument.  A
      request that carries no JSON, or JSON that does not parse, never
      reaches the handler's own checks: [get_json] aborts it, see
      [Part4.get_json] and the routes built on it.  Bodies that parse to an
      array, a string or a number are outside the model.
    - The constraints the model classes declare (NOT NULL, UNIQUE) are checked
      when a unit of work is flushed; a violation raises [IntegrityError].
      None of the handlers catches it, the framework rolls the transaction
      back and answers with a 500 page: outcome [Raised], store unchanged.
      SQLite does not enforce foreign keys unless asked to with a PRAGMA, and
      the applications never ask, so the only foreign-key checks are the ones
      the handlers spell out.
    - A handler that returns before [db.session.commit()] leaves the store as
      it was: the session is discarded when the request ends. *)

From stdpp Require Import gmap strings list sorting fin_maps.

Open Scope string_scope.
Open Scope Z_scope.

(** ** Python values and JSON documents *)

Inductive pyval :=
  | PNone
  | PInt (z : Z)
  | PStr (s : string).

Global Instance pyval_eq_dec : EqDecision pyval.
Proof. solve_decision. Defined.

(** Python's truth value: [None], [0] and [''] are false. *)
Definition truthy (v : pyval) : bool :=
  match v with
  | PNone => false
  | PInt z => bool_decide (z ≠ 0)
  | PStr s => bool_decide (s ≠ "")
  end.

(** The integers SQLite stores and a statement can bind: signed 64-bit. *)
Definition sqlite_int (z : Z) : Prop := - 2 ^ 63 ≤ z < 2 ^ 63.

(** A request value an Integer column (or a lookup by key) takes as it is
    sent: null, or an integer in range. *)
Definition int_value (v : pyval) : Prop :=
  match v with
  | PNone => True
  | PInt z => sqlite_int z
  | PStr _ => False
  end.

(** A request value a String or Text column takes as it is sent: null, or a
    string. *)
Definition text_value (v : pyval) : Prop :=
  match v with
  | PNone => True
  | PInt _ => False
  | PStr _ => True
  end.

(** What [jsonify] is given: scalars, booleans, lists and dictionaries
    (in the order the dictionary literal lists its keys). *)
#[local] Unset Elimination Schemes.
Inductive json :=
  | JVal (v : pyval)
  | JBool (b : bool)
  | JList (l : list json)
  | JDict (kv : list (string * json)).
#[local] Set Elimination Schemes.

(** [body[k]] on a response dictionary. *)
Fixpoint assoc (k : string) (kv : list (string * json)) : option json :=
  match kv with
  | [] => None
  | (k', v) :: kv => if decide (k' = k) then Some v else assoc k kv
  end.

Definition field (k : string) (j : json) : option json :=
  match j with
  | JDict kv => assoc k kv
  | _ => None
  end.

(** A parsed JSON object.  [data.get(k)] is [dict_get d k]; the idiom
    [if k in data: x = data[k]] is a match on [d !! k]. *)
Definition dict_get (d : gmap string pyval) (k : string) : pyval :=
  default PNone (d !! k).

(** [not data]: no body, or the empty object. *)
Definition no_data (data : option (gmap string pyval)) : bool :=
  match data with
  | None => true
  | Some d => bool_decide (d = ∅)
  end.

Inductive exn :=
  | IntegrityError
  | BadRequestKeyError.

(** ** The table layer *)

(** Rows in rowid order, the order of a full table scan. *)
Definition rowid_le {A} (x y : Z * A) : Prop := x.1 ≤ y.1.

Global Instance rowid_le_dec {A} : RelDecision (@rowid_le A).
Proof. intros x y. unfold rowid_le. apply _. Defined.

Definition all_rows {A} (m : gmap Z A) : list (Z * A) :=
  merge_sort rowid_le (map_to_list m).

(** The key an INTEGER PRIMARY KEY column gets on insert: one more than the
    largest key in use, 1 in an empty table.  (Keys are unbounded here; what
    SQLite does once the largest key is 2^63 - 1 is not modelled.) *)
Definition max_key {A} (m : gmap Z A) : option Z :=
  map_fold (λ k _ acc, match acc with
                       | None => Some k
                       | Some k' => Some (Z.max k k')
                       end) None m.

Definition next_id {A} (m : gmap Z A) : Z :=
  match max_key m with
  | None => 1
  | Some k => k + 1
  end.

(** ** Part 3: students and teachers *)

Module Part3.

Module Course.
Record t := mk { name : string; description : string }.
End Course.

Module Student.
Record t := mk { name : string; email : string; course_id : string }.
End Student.

Module Teacher.
Record t := mk {
    name : string;
    email : string;
    specialization : string;
    course_id : string }.
End Teacher.

Record db := mkdb {
  courses : gmap Z Course.t;
  students : gmap Z Student.t;
  teachers : gmap Z Teacher.t }.

(** What a view function hands back: a rendered template (with the courses
    for the drop-down), or a redirect to an endpoint after a flashed
    message; [Raised] when it does not return. *)
Inductive outcome :=
  | Rendered (template : string) (courses : list (Z * Course.t))
  | Redirected (endpoint : string) (flash : string * string)
  | Raised (e : exn).

(** The UNIQUE index on [student.email]. *)
Definition student_email_taken (ss : gmap Z Student.t) (e : string) : bool :=
  existsb (λ ks, bool_decide (Student.email ks.2 = e)) (map_to_list ss).

(** The UNIQUE index on [teacher.email]. *)
Definition teacher_email_taken (ts : gmap Z Teacher.t) (e : string) : bool :=
  existsb (λ kt, bool_decide (Teacher.email kt.2 = e)) (map_to_list ts).

(** INSERT INTO student *)
Definition insert_student (ss : gmap Z Student.t) (s : Student.t)
  : exn + gmap Z Student.t :=
  if student_email_taken ss (Student.email s) then inl IntegrityError
  else inr (<[next_id ss := s]> ss).

(** INSERT INTO teacher *)
Definition insert_teacher (ts : gmap Z Teacher.t) (t : Teacher.t)
  : exn + gmap Z Teacher.t :=
  if teacher_email_taken ts (Teacher.email t) then inl IntegrityError
  else inr (<[next_id ts := t]> ts).

(** [/add]: [request.form[k]] on a missing key raises
    [BadRequestKeyError]. *)
Definition add_student (st : db) (method : string) (form : gmap string string)
  : outcome * db :=
  if decide (method = "POST") then
    match form !! "name" with
    | None => (Raised BadRequestKeyError, st)
    | Some name =>
        match form !! "email" with
        | None => (Raised BadRequestKeyError, st)
        | Some email =>
            match form !! "course_id" with
            | None => (Raised BadRequestKeyError, st)
            | Some course_id =>
                let new_student := Student.mk name email course_id in
                match insert_student (students st) new_student with
                | inl e => (Raised e, st)
                | inr ss =>
                    (Redirected "index"
                       ("Student added successfully!", "success"),
                     mkdb (courses st) ss (teachers st))
                end
            end
        end
    end
  else (Rendered "add.html" (all_rows (courses st)), st).

(** [/add-teacher] *)
Definition add_teacher (st : db) (method : string) (form : gmap string string)
  : outcome * db :=
  if decide (method = "POST") then
    match form !! "name" with
    | None => (Raised BadRequestKeyError, st)
    | Some name =>
        match form !! "email" with
        | None => (Raised BadRequestKeyError, st)
        | Some email =>
            let specialization := default "" (form !! "specialization") in
            match form !! "course_id" with
            | None => (Raised BadRequestKeyError, st)
            | Some course_id =>
                let new_teacher :=
                  Teacher.mk name email specialization course_id in
                match insert_teacher (teachers st) new_teacher with
                | inl e => (Raised e, st)
                | inr ts =>
                    (Redirected "teachers"
                       ("Teacher added successfully!", "success"),
                     mkdb (courses st) (students st) ts)
                end
            end
        end
    end
  else (Rendered "add_teacher.html" (all_rows (courses st)), st).

(** The rows [init_db] puts into an empty database (a course id is kept in
    the text form a submitted form carries). *)
Definition seeded : db :=
  mkdb
    (list_to_map
       [ (1, Course.mk "Python Basics" "Learn Python programming fundamentals");
         (2, Course.mk "Web Development" "HTML, CSS, JavaScript and Flask");
         (3, Course.mk "Data Science" "Data analysis with Python") ])
    (list_to_map
       [ (1, Student.mk "Alice Smith" "alice@student.com" "1");
         (2, Student.mk "Bob Johnson" "bob@student.com" "2");
         (3, Student.mk "Charlie Davis" "charlie@student.com" "1");
         (4, Student.mk "Diana Wilson" "diana@student.com" "3") ])
    (list_to_map
       [ (1, Teacher.mk "Dr. Sarah Johnson" "sarah@school.com"
                        "Python Programming" "1");
         (2, Teacher.mk "Prof. Mike Chen" "mike@school.com"
                        "Full Stack Development" "2");
         (3, Teacher.mk "Dr. Emily Brown" "emily@school.com"
                        "Data Analytics" "3") ]).

(** The request did not go through: the view raised. *)
Definition failed (o : outcome) : Prop :=
  match o with
  | Raised _ => True
  | _ => False
  end.

(** *** The edit, delete and add-course views *)

(** What these views hand back: [get_or_404] aborting, a template rendered
    without or with a row to edit, or one of the outcomes above.  The views
    are modelled for the ids [get_or_404] can bind ([sqlite_int]). *)
Inductive reply :=
  | Aborted (status : Z)
  | Page (template : string)
  | StudentForm (template : string) (student : Z * Student.t)
                (courses : list (Z * Course.t))
  | TeacherForm (template : string) (teacher : Z * Teacher.t)
                (courses : list (Z * Course.t))
  | Returned (o : outcome).

(** The UNIQUE indexes again, as an UPDATE meets them: is the value held by
    a row other than [id]? *)
Definition student_email_held (ss : gmap Z Student.t) (id : Z) (e : string)
  : bool :=
  existsb (λ ks, bool_decide (ks.1 ≠ id ∧ Student.email ks.2 = e))
          (map_to_list ss).

Definition teacher_email_held (ts : gmap Z Teacher.t) (id : Z) (e : string)
  : bool :=
  existsb (λ kt, bool_decide (kt.1 ≠ id ∧ Teacher.email kt.2 = e))
          (map_to_list ts).

(** UPDATE student SET (the columns that changed) WHERE id = ... *)
Definition flush_student (ss : gmap Z Student.t) (id : Z)
    (old new : Student.t) : exn + gmap Z Student.t :=
  if bool_decide (Student.email new ≠ Student.email old)
     && student_email_held ss id (Student.email new)
  then inl IntegrityError
  else inr (<[id := new]> ss).

(** UPDATE teacher SET (the columns that changed) WHERE id = ... *)
Definition flush_teacher (ts : gmap Z Teacher.t) (id : Z)
    (old new : Teacher.t) : exn + gmap Z Teacher.t :=
  if bool_decide (Teacher.email new ≠ Teacher.email old)
     && teacher_email_held ts id (Teacher.email new)
  then inl IntegrityError
  else inr (<[id := new]> ts).

(** [/edit/<id>] *)
Definition edit_student (st : db) (id : Z) (method : string)
    (form : gmap string string) : reply * db :=
  match students st !! id with
  | None => (Aborted 404, st)
  | Some student =>
      if decide (method = "POST") then
        match form !! "name" with
        | None => (Returned (Raised BadRequestKeyError), st)
        | Some name =>
            match form !! "email" with
            | None => (Returned (Raised BadRequestKeyError), st)
            | Some email =>
                match form !! "course_id" with
                | None => (Returned (Raised BadRequestKeyError), st)
                | Some course_id =>
                    match flush_student (students st) id student
                            (Student.mk name email course_id) with
                    | inl e => (Returned (Raised e), st)
                    | inr ss =>
                        (Returned (Redirected "index"
                                     ("Student updated!", "success")),
                         mkdb (courses st) ss (teachers st))
                    end
                end
            end
        end
      else (StudentForm "edit.html" (id, student) (all_rows (courses st)), st)
  end.

(** [/delete/<id>] *)
Definition delete_student (st : db) (id : Z) : reply * db :=
  match students st !! id with
  | None => (Aborted 404, st)
  | Some student =>
      (Returned (Redirected "index" ("Student deleted!", "danger")),
       mkdb (courses st) (delete id (students st)) (teachers st))
  end.

(** [/edit-teacher/<id>] *)
Definition edit_teacher (st : db) (id : Z) (method : string)
    (form : gmap string string) : reply * db :=
  match teachers st !! id with
  | None => (Aborted 404, st)
  | Some teacher =>
      if decide (method = "POST") then
        match form !! "name" with
        | None => (Returned (Raised BadRequestKeyError), st)
        | Some name =>
            match form !! "email" with
            | None => (Returned (Raised BadRequestKeyError), st)
            | Some email =>
                let specialization := default "" (form !! "specialization") in
                match form !! "course_id" with
                | None => (Returned (Raised BadRequestKeyError), st)
                | Some course_id =>
                    match flush_teacher (teachers st) id teacher
                            (Teacher.mk name email specialization course_id)
                    with
                    | inl e => (Returned (Raised e), st)
                    | inr ts =>
                        (Returned (Redirected "teachers"
                                     ("Teacher updated!", "success")),
                         mkdb (courses st) (students st) ts)
                    end
                end
            end
        end
      else
        (TeacherForm "edit_teacher.html" (id, teacher)
                     (all_rows (courses st)), st)
  end.

(** [/delete-teacher/<id>] *)
Definition delete_teacher (st : db) (id : Z) : reply * db :=
  match teachers st !! id with
  | None => (Aborted 404, st)
  | Some teacher =>
      (Returned (Redirected "teachers" ("Teacher deleted!", "danger")),
       mkdb (courses st) (students st) (delete id (teachers st)))
  end.

(** [/add-course]; the course table has no constraint an insert of two
    strings could break. *)
Definition add_course (st : db) (method : string) (form : gmap string string)
  : reply * db :=
  if decide (method = "POST") then
    match form !! "name" with
    | None => (Returned (Raised BadRequestKeyError), st)
    | Some name =>
        let description := default "" (form !! "description") in
        let new_course := Course.mk name description in
        (Returned (Redirected "courses" ("Course added!", "success")),
         mkdb (<[next_id (courses st) := new_course]> (courses st))
              (students st) (teachers st))
    end
  else (Page "add_course.html", st).

(** The two UNIQUE constraints, as a property of the store. *)
Definition emails_unique (st : db) : Prop :=
  (∀ k1 k2 s1 s2,
     students st !! k1 = Some s1 → students st !! k2 = Some s2 →
     Student.email s1 = Student.email s2 → k1 = k2) ∧
  (∀ k1 k2 t1 t2,
     teachers st !! k1 = Some t1 → teachers st !! k2 = Some t2 →
     Teacher.email t1 = Teacher.email t2 → k1 = k2).

End Part3.

(** ** Part 4: authors and books *)

Module Part4.

Module Author.
Record t := mk { name : pyval; bio : pyval; city : pyval }.
Definition set_name (v : pyval) (a : t) : t := mk v (bio a) (city a).
Definition set_bio (v : pyval) (a : t) : t := mk (name a) v (city a).
Definition set_city (v : pyval) (a : t) : t := mk (name a) (bio a) v.
End Author.

Module Book.
Record t := mk {
    title : pyval;
    author_id : pyval;
    year : pyval;
    isbn : pyval;
    created_at : pyval }.
Definition set_title (v : pyval) (b : t) : t :=
    mk v (author_id b) (year b) (isbn b) (created_at b).
Definition set_author_id (v : pyval) (b : t) : t :=
    mk (title b) v (year b) (isbn b) (created_at b).
Definition set_year (v : pyval) (b : t) : t :=
    mk (title b) (author_id b) v (isbn b) (created_at b).
Definition set_isbn (v : pyval) (b : t) : t :=
    mk (title b) (author_id b) (year b) v (created_at b).
End Book.

Record db := mkdb {
  authors : gmap Z Author.t;
  books : gmap Z Book.t }.

Inductive outcome :=
  | Response (status : Z) (body : json)
  | Raised (e : exn).

(** [Author.query.get(v)], for [v] null or an integer SQLite can bind
    ([int_value]).  A string is compared under the key's integer affinity
    and an integer beyond 64 bits raises [OverflowError]; those are not
    modelled, and the statements that depend on what the lookup finds take
    [int_value v] as a hypothesis. *)
Definition author_get (st : db) (v : pyval) : option Author.t :=
  match v with
  | PInt z => authors st !! z
  | _ => None
  end.

(** [author.books]: the rows the relationship loads. *)
Definition author_books (st : db) (id : Z) : list (Z * Book.t) :=
  filter (λ kb, Book.author_id kb.2 = PInt id) (all_rows (books st)).

(** [Book.query.filter_by(isbn=v)] *)
Definition filter_by_isbn (st : db) (v : pyval) : list (Z * Book.t) :=
  filter (λ kb, Book.isbn kb.2 = v) (all_rows (books st)).

(** The UNIQUE index on [book.isbn]: does a row other than [id] hold the
    non-NULL value [v]? *)
Definition isbn_taken (bs : gmap Z Book.t) (id : Z) (v : pyval) : bool :=
  bool_decide (v ≠ PNone) &&
  existsb (λ kb, bool_decide (kb.1 ≠ id ∧ Book.isbn kb.2 = v)) (map_to_list bs).

(** INSERT INTO book.  The row's values are stored as they come, which is
    what SQLite does with [text_value]s in [title] and [isbn] and
    [int_value]s in [author_id] and [year]. *)
Definition insert_book (bs : gmap Z Book.t) (b : Book.t)
  : exn + (Z * gmap Z Book.t) :=
  let id := next_id bs in
  if bool_decide (Book.title b = PNone) then inl IntegrityError
  else if bool_decide (Book.author_id b = PNone) then inl IntegrityError
  else if isbn_taken bs id (Book.isbn b) then inl IntegrityError
  else inr (id, <[id := b]> bs).

(** UPDATE book SET (the columns that changed) WHERE id = ... *)
Definition flush_book (bs : gmap Z Book.t) (id : Z) (old new : Book.t)
  : exn + gmap Z Book.t :=
  if bool_decide (Book.title new ≠ Book.title old ∧ Book.title new = PNone)
  then inl IntegrityError
  else if bool_decide (Book.author_id new ≠ Book.author_id old
                       ∧ Book.author_id new = PNone)
  then inl IntegrityError
  else if bool_decide (Book.isbn new ≠ Book.isbn old)
          && isbn_taken bs id (Book.isbn new)
  then inl IntegrityError
  else inr (<[id := new]> bs).

(** INSERT INTO author *)
Definition insert_author (au : gmap Z Author.t) (a : Author.t)
  : exn + (Z * gmap Z Author.t) :=
  let id := next_id au in
  if bool_decide (Author.name a = PNone) then inl IntegrityError
  else inr (id, <[id := a]> au).

(** UPDATE author SET ... WHERE id = ... *)
Definition flush_author (au : gmap Z Author.t) (id : Z) (old new : Author.t)
  : exn + gmap Z Author.t :=
  if bool_decide (Author.name new ≠ Author.name old ∧ Author.name new = PNone)
  then inl IntegrityError
  else inr (<[id := new]> au).

(** [Author.to_dict] *)
Definition author_to_dict (st : db) (id : Z) (a : Author.t)
  : list (string * json) :=
  [ ("id", JVal (PInt id));
    ("name", JVal (Author.name a));
    ("bio", JVal (Author.bio a));
    ("city", JVal (Author.city a));
    ("books_count", JVal (PInt (Z.of_nat (length (author_books st id))))) ].

(** [Book.to_dict]; a timestamp is kept in its ISO text form. *)
Definition book_to_dict (st : db) (id : Z) (b : Book.t) : json :=
  JDict
  [ ("id", JVal (PInt id));
    ("title", JVal (Book.title b));
    ("author_id", JVal (Book.author_id b));
    ("author_name",
       JVal (match author_get st (Book.author_id b) with
             | Some author => Author.name author
             | None => PStr "Unknown Author"
             end));
    ("year", JVal (Book.year b));
    ("isbn", JVal (Book.isbn b));
    ("created_at", JVal (Book.created_at b)) ].

(** GET /api/authors/<id> *)
Definition get_author (st : db) (id : Z) : outcome :=
  match authors st !! id with
  | None =>
      Response 404 (JDict [("success", JBool false);
                           ("error", JVal (PStr "Author not found"))])
  | Some author =>
      let author_data :=
        (author_to_dict st id author ++
         [("books", JList (map (λ kb, book_to_dict st kb.1 kb.2)
                               (author_books st id)))])%list in
      Response 200 (JDict [("success", JBool true);
                           ("author", JDict author_data)])
  end.

(** POST /api/authors *)
Definition create_author (st : db) (data : option (gmap string pyval))
  : outcome * db :=
  if no_data data then
    (Response 400 (JDict [("success", JBool false);
                          ("error", JVal (PStr "No data provided"))]), st)
  else
    let d := default ∅ data in
    if negb (truthy (dict_get d "name")) then
      (Response 400 (JDict [("success", JBool false);
                            ("error", JVal (PStr "Name is required"))]), st)
    else
      let new_author :=
        Author.mk (dict_get d "name") (dict_get d "bio") (dict_get d "city") in
      match insert_author (authors st) new_author with
      | inl e => (Raised e, st)
      | inr (id, au) =>
          let st' := mkdb au (books st) in
          (Response 201
             (JDict [("success", JBool true);
                     ("message", JVal (PStr "Author created successfully"));
                     ("author", JDict (author_to_dict st' id new_author))]),
           st')
      end.

(** PUT /api/authors/<id> *)
Definition update_author (st : db) (id : Z) (data : option (gmap string pyval))
  : outcome * db :=
  match authors st !! id with
  | None =>
      (Response 404 (JDict [("success", JBool false);
                            ("error", JVal (PStr "Author not found"))]), st)
  | Some old =>
      if no_data data then
        (Response 400 (JDict [("success", JBool false);
                              ("error", JVal (PStr "No data provided"))]), st)
      else
        let d := default ∅ data in
        let author := old in
        let author :=
          match d !! "name" with
          | Some v => Author.set_name v author
          | None => author
          end in
        let author :=
          match d !! "bio" with
          | Some v => Author.set_bio v author
          | None => author
          end in
        let author :=
          match d !! "city" with
          | Some v => Author.set_city v author
          | None => author
          end in
        match flush_author (authors st) id old author with
        | inl e => (Raised e, st)
        | inr au =>
            let st' := mkdb au (books st) in
            (Response 200
               (JDict [("success", JBool true);
                       ("message", JVal (PStr "Author updated successfully"));
                       ("author", JDict (author_to_dict st' id author))]),
             st')
        end
  end.

(** DELETE /api/authors/<id>.  The [books] relationship is declared with
    [cascade="all, delete-orphan"]: deleting the author through the session
    deletes the rows [author.books] loads. *)
Definition delete_author (st : db) (id : Z) : outcome * db :=
  match authors st !! id with
  | None =>
      (Response 404 (JDict [("success", JBool false);
                            ("error", JVal (PStr "Author not found"))]), st)
  | Some author =>
      let bs := foldr (λ kb m, delete kb.1 m) (books st) (author_books st id) in
      (Response 200
         (JDict [("success", JBool true);
                 ("message",
                  JVal (PStr "Author and associated books deleted successfully"))]),
       mkdb (delete id (authors st)) bs)
  end.

(** GET /api/books/<id> *)
Definition get_book (st : db) (id : Z) : outcome :=
  match books st !! id with
  | None =>
      Response 404 (JDict [("success", JBool false);
                           ("error", JVal (PStr "Book not found"))])
  | Some book =>
      Response 200 (JDict [("success", JBool true);
                           ("book", book_to_dict st id book)])
  end.

(** POST /api/books.  [now] is what [datetime.utcnow] returns when the
    column default is evaluated. *)
Definition create_book (st : db) (now : string)
    (data : option (gmap string pyval)) : outcome * db :=
  if no_data data then
    (Response 400 (JDict [("success", JBool false);
                          ("error", JVal (PStr "No data provided"))]), st)
  else
    let d := default ∅ data in
    if negb (truthy (dict_get d "title")) || negb (truthy (dict_get d "author_id"))
    then
      (Response 400
         (JDict [("success", JBool false);
                 ("error", JVal (PStr "Title and author_id are required"))]), st)
    else
      match author_get st (dict_get d "author_id") with
      | None =>
          (Response 400 (JDict [("success", JBool false);
                                ("error", JVal (PStr "Author not found"))]), st)
      | Some author =>
          if truthy (dict_get d "isbn")
             && bool_decide (is_Some (head (filter_by_isbn st (dict_get d "isbn"))))
          then
            (Response 400 (JDict [("success", JBool false);
                                  ("error", JVal (PStr "ISBN already exists"))]),
             st)
          else
            let new_book :=
              Book.mk (dict_get d "title") (dict_get d "author_id")
                      (dict_get d "year") (dict_get d "isbn") (PStr now) in
            match insert_book (books st) new_book with
            | inl e => (Raised e, st)
            | inr (id, bs) =>
                let st' := mkdb (authors st) bs in
                (Response 201
                   (JDict [("success", JBool true);
                           ("message", JVal (PStr "Book created successfully"));
                           ("book", book_to_dict st' id new_book)]),
                 st')
            end
      end.

(** PUT /api/books/<id>.  [Author.query.get] has to run a SELECT (the session
    holds no author), and a query first flushes what is pending, here the
    new title; [tx] is the table as the open transaction sees it and
    [flushed] the row as last written to it. *)
Definition update_book (st : db) (id : Z) (data : option (gmap string pyval))
  : outcome * db :=
  match books st !! id with
  | None =>
      (Response 404 (JDict [("success", JBool false);
                            ("error", JVal (PStr "Book not found"))]), st)
  | Some old =>
      if no_data data then
        (Response 400 (JDict [("success", JBool false);
                              ("error", JVal (PStr "No data provided"))]), st)
      else
        let d := default ∅ data in
        let book :=
          match d !! "title" with
          | Some v => Book.set_title v old
          | None => old
          end in
        let checked : outcome + (gmap Z Book.t * Book.t * Book.t) :=
          match d !! "author_id" with
          | Some v =>
              match flush_book (books st) id old book with
              | inl e => inl (Raised e)
              | inr tx =>
                  match author_get st v with
                  | None =>
                      inl (Response 400
                             (JDict [("success", JBool false);
                                     ("error", JVal (PStr "Author not found"))]))
                  | Some author => inr (tx, book, Book.set_author_id v book)
                  end
              end
          | None => inr (books st, old, book)
          end in
        match checked with
        | inl o => (o, st)
        | inr (tx, flushed, book) =>
            let book :=
              match d !! "year" with
              | Some v => Book.set_year v book
              | None => book
              end in
            let book :=
              match d !! "isbn" with
              | Some v => Book.set_isbn v book
              | None => book
              end in
            match flush_book tx id flushed book with
            | inl e => (Raised e, st)
            | inr bs =>
                let st' := mkdb (authors st) bs in
                (Response 200
                   (JDict [("success", JBool true);
                           ("message", JVal (PStr "Book updated successfully"));
                           ("book", book_to_dict st' id book)]),
                 st')
            end
        end
  end.

(** DELETE /api/books/<id> *)
Definition delete_book (st : db) (id : Z) : outcome * db :=
  match books st !! id with
  | None =>
      (Response 404 (JDict [("success", JBool false);
                            ("error", JVal (PStr "Book not found"))]), st)
  | Some book =>
      (Response 200 (JDict [("success", JBool true);
                            ("message", JVal (PStr "Book deleted successfully"))]),
       mkdb (authors st) (delete id (books st)))
  end.

(** *** Sorting and pagination *)

(** SQLite's ordering of stored values: NULL first, then integers, then text
    (byte-wise). *)
Definition sql_le (a b : pyval) : Prop :=
  match a, b with
  | PNone, _ => True
  | PInt _, PNone => False
  | PInt x, PInt y => x ≤ y
  | PInt _, PStr _ => True
  | PStr s, PStr t => String.leb s t = true
  | PStr _, _ => False
  end.

Global Instance sql_le_dec : RelDecision sql_le.
Proof. intros [| x | s] [| y | t]; simpl; apply _. Defined.

(** [col.asc()] and [col.desc()] as the relation consecutive rows satisfy. *)
Definition asc (col : Z * Book.t → pyval) (x y : Z * Book.t) : Prop :=
  sql_le (col x) (col y).

Definition desc (col : Z * Book.t → pyval) (x y : Z * Book.t) : Prop :=
  sql_le (col y) (col x).

Global Instance asc_dec col : RelDecision (asc col).
Proof. intros x y. unfold asc. apply _. Defined.

Global Instance desc_dec col : RelDecision (desc col).
Proof. intros x y. unfold desc. apply _. Defined.

(** [query.order_by(col.asc() if order == 'asc' else col.desc())].  SQL
    fixes no order among rows with equal sort values; here they come as the
    merge leaves them. *)
Definition order_by (col : Z * Book.t → pyval) (order : string)
    (rows : list (Z * Book.t)) : list (Z * Book.t) :=
  if decide (order = "asc")
  then merge_sort (asc col) rows
  else merge_sort (desc col) rows.

(** Flask-SQLAlchemy's [Pagination], as [paginate(page, per_page,
    error_out=False)] builds it: a page or a page size below 1 is replaced
    by 1 and by 20, nothing is refused.  The call passes no [max_per_page],
    so the page size is taken as sent.  The page size is the query's LIMIT
    and [(page - 1) * per_page] its OFFSET: the model is of the requests
    for which both are [sqlite_int]. *)
Record Pagination := mkPagination {
  items : list (Z * Book.t);
  total : Z;
  page : Z;
  per_page : Z }.

Definition paginate (rows : list (Z * Book.t)) (page per_page : Z) : Pagination :=
  let page := if bool_decide (page < 1) then 1 else page in
  let per_page := if bool_decide (per_page < 1) then 20 else per_page in
  {| items := take (Z.to_nat per_page)
                   (drop (Z.to_nat ((page - 1) * per_page)) rows);
     total := Z.of_nat (length rows);
     page := page;
     per_page := per_page |}.

(** [ceil(total / per_page)] *)
Definition pages (p : Pagination) : Z :=
  if bool_decide (total p = 0) then 0
  else (total p + per_page p - 1) `div` per_page p.

Definition has_next (p : Pagination) : bool := bool_decide (page p < pages p).
Definition has_prev (p : Pagination) : bool := bool_decide (page p > 1).

Definition allowed_sort_fields : list string :=
  ["id"; "title"; "year"; "created_at"].

(** The first half of [get_books]: the sort field is checked against the
    allow-list, then the query is built. *)
Definition books_query (st : db) (sort_by order : string)
  : list (Z * Book.t) :=
  let sort_by :=
    if decide (sort_by ∈ allowed_sort_fields) then sort_by else "id" in
  if decide (sort_by = "title") then
    order_by (λ kb, Book.title kb.2) order (all_rows (books st))
  else if decide (sort_by = "year") then
    order_by (λ kb, Book.year kb.2) order (all_rows (books st))
  else if decide (sort_by = "created_at") then
    order_by (λ kb, Book.created_at kb.2) order (all_rows (books st))
  else
    order_by (λ kb, PInt kb.1) order (all_rows (books st)).

(** GET /api/books?page=&per_page=&sort=&order= ; the four arguments are
    what [request.args.get] yields, defaults included. *)
Definition get_books (st : db) (page per_page : Z) (sort_by order : string)
  : outcome :=
  let query := books_query st sort_by order in
  let pagination := paginate query page per_page in
  Response 200
    (JDict [("success", JBool true);
            ("count", JVal (PInt (total pagination)));
            ("page", JVal (PInt (Part4.page pagination)));
            ("pages", JVal (PInt (pages pagination)));
            ("per_page", JVal (PInt per_page));
            ("has_next", JBool (has_next pagination));
            ("has_prev", JBool (has_prev pagination));
            ("books", JList (map (λ kb, book_to_dict st kb.1 kb.2)
                                 (items pagination)))]).

(** *** Vocabulary for the statements below *)

(** An answer that reports failure: an error envelope with a 4xx status, or
    an exception nobody caught. *)
Definition rejected (o : outcome) : Prop :=
  match o with
  | Response status body =>
      400 ≤ status < 500 ∧ field "success" body = Some (JBool false)
  | Raised _ => True
  end.

(** The UNIQUE constraint on [book.isbn], as a property of a table. *)
Definition isbn_unique (bs : gmap Z Book.t) : Prop :=
  ∀ k1 k2 b1 b2,
    bs !! k1 = Some b1 → bs !! k2 = Some b2 →
    Book.isbn b1 = Book.isbn b2 → Book.isbn b1 ≠ PNone → k1 = k2.

(** The rows [init_db] puts into an empty database. *)
Definition sample_authors : gmap Z Author.t :=
  list_to_map
  [ (1, Author.mk (PStr "Eric Matthes") (PStr "Python educator and author")
                  (PStr "Anchorage"));
    (2, Author.mk (PStr "Miguel Grinberg")
                  (PStr "Flask expert and software engineer") (PStr "Portland"));
    (3, Author.mk (PStr "Robert C. Martin")
                  (PStr "Software engineer and author") (PStr "Illinois"));
    (4, Author.mk (PStr "J.K. Rowling") (PStr "Author of Harry Potter series")
                  (PStr "London"));
    (5, Author.mk (PStr "George Orwell") (PStr "English novelist and essayist")
                  (PStr "London")) ].

Definition sample_books (now : string) : gmap Z Book.t :=
  list_to_map
  [ (1, Book.mk (PStr "Python Crash Course") (PInt 1) (PInt 2019)
                (PStr "978-1593279288") (PStr now));
    (2, Book.mk (PStr "Flask Web Development") (PInt 2) (PInt 2018)
                (PStr "978-1491991732") (PStr now));
    (3, Book.mk (PStr "Clean Code") (PInt 3) (PInt 2008)
                (PStr "978-0132350884") (PStr now));
    (4, Book.mk (PStr "Harry Potter and the Philosopher's Stone") (PInt 4)
                (PInt 1997) (PStr "978-0747532743") (PStr now));
    (5, Book.mk (PStr "1984") (PInt 5) (PInt 1949) (PStr "978-0451524935")
                (PStr now));
    (6, Book.mk (PStr "Animal Farm") (PInt 5) (PInt 1945)
                (PStr "978-0451526342") (PStr now));
    (7, Book.mk (PStr "Python for Everybody") (PInt 1) (PInt 2016)
                (PStr "978-1530051120") (PStr now));
    (8, Book.mk (PStr "Flask API Development") (PInt 2) (PInt 2021)
                (PStr "978-1484270894") (PStr now)) ].

Definition seeded : db := mkdb sample_authors (sample_books "2024-01-01T00:00:00").

(** The ids of the books a list response carries, in the order it carries
    them. *)
Definition dict_id (j : json) : option Z :=
  match field "id" j with
  | Some (JVal (PInt z)) => Some z
  | _ => None
  end.

Definition returned_ids (body : json) : list Z :=
  match field "books" body with
  | Some (JList l) => omap dict_id l
  | _ => []
  end.

(** The error envelope [{'success': False, 'error': msg}]. *)
Definition error_body (msg : string) : json :=
  JDict [("success", JBool false); ("error", JVal (PStr msg))].

(** *** The remaining read routes *)

(** GET /api/authors *)
Definition get_authors (st : db) : outcome :=
  let authors := all_rows (authors st) in
  Response 200
    (JDict [("success", JBool true);
            ("count", JVal (PInt (Z.of_nat (length authors))));
            ("authors", JList (map (λ ka, JDict (author_to_dict st ka.1 ka.2))
                                   authors))]).

(** GET /api/books-with-pagination: [Book.query.paginate], no ORDER BY. *)
Definition get_books_paginated (st : db) (page per_page : Z) : outcome :=
  let pagination := paginate (all_rows (books st)) page per_page in
  Response 200
    (JDict [("success", JBool true);
            ("count", JVal (PInt (total pagination)));
            ("page", JVal (PInt (Part4.page pagination)));
            ("pages", JVal (PInt (pages pagination)));
            ("per_page", JVal (PInt per_page));
            ("has_next", JBool (has_next pagination));
            ("has_prev", JBool (has_prev pagination));
            ("books", JList (map (λ kb, book_to_dict st kb.1 kb.2)
                                 (items pagination)))]).

(** GET /api/books-with-sorting: the same dispatch as [get_books], without
    the allow-list in front of it, and the whole result in one answer. *)
Definition get_books_sorted (st : db) (sort_by order : string) : outcome :=
  let query :=
    if decide (sort_by = "title") then
      order_by (λ kb, Book.title kb.2) order (all_rows (books st))
    else if decide (sort_by = "year") then
      order_by (λ kb, Book.year kb.2) order (all_rows (books st))
    else if decide (sort_by = "created_at") then
      order_by (λ kb, Book.created_at kb.2) order (all_rows (books st))
    else
      order_by (λ kb, PInt kb.1) order (all_rows (books st)) in
  let books := query in
  Response 200
    (JDict [("success", JBool true);
            ("count", JVal (PInt (Z.of_nat (length books))));
            ("sort_by", JVal (PStr sort_by));
            ("order", JVal (PStr order));
            ("books", JList (map (λ kb, book_to_dict st kb.1 kb.2) books))]).

(** *** More vocabulary *)

(** Every book points at an author row. *)
Definition books_have_authors (st : db) : Prop :=
  ∀ k b, books st !! k = Some b → is_Some (author_get st (Book.author_id b)).

(** The NOT NULL columns hold a value. *)
Definition required_columns (st : db) : Prop :=
  (∀ k b, books st !! k = Some b →
          Book.title b ≠ PNone ∧ Book.author_id b ≠ PNone) ∧
  (∀ k a, authors st !! k = Some a → Author.name a ≠ PNone).

(** A book row with the columns a PUT body names replaced by the body's
    values. *)
Definition patch_book (d : gmap string pyval) (old : Book.t) : Book.t :=
  Book.mk (default (Book.title old) (d !! "title"))
          (default (Book.author_id old) (d !! "author_id"))
          (default (Book.year old) (d !! "year"))
          (default (Book.isbn old) (d !! "isbn"))
          (Book.created_at old).

(** The ids, and the values under one key, of the books an answer lists. *)
Definition listed_ids (o : outcome) : list Z :=
  match o with
  | Response _ body => returned_ids body
  | Raised _ => []
  end.

Definition dict_value (key : string) (j : json) : option pyval :=
  match field key j with
  | Some (JVal v) => Some v
  | _ => None
  end.

(** [listed coll key o]: the values under [key] of the dictionaries the
    answer lists under [coll] ("books" or "authors"). *)
Definition listed (coll key : string) (o : outcome) : list pyval :=
  match o with
  | Response _ body =>
      match field coll body with
      | Some (JList l) => omap (dict_value key) l
      | _ => []
      end
  | Raised _ => []
  end.

(** The column a recognised [sort] value orders by. *)
Definition sort_column (sort_by : string) (kb : Z * Book.t) : pyval :=
  if decide (sort_by = "title") then Book.title kb.2
  else if decide (sort_by = "year") then Book.year kb.2
  else if decide (sort_by = "created_at") then Book.created_at kb.2
  else PInt kb.1.

(** The body of a POST /api/authors or PUT /api/authors/<id> holds values
    the columns take as sent; likewise for books. *)
Definition author_fields_typed (d : gmap string pyval) : Prop :=
  text_value (dict_get d "name") ∧ text_value (dict_get d "bio") ∧
  text_value (dict_get d "city").

Definition book_fields_typed (d : gmap string pyval) : Prop :=
  text_value (dict_get d "title") ∧ int_value (dict_get d "author_id") ∧
  int_value (dict_get d "year") ∧ text_value (dict_get d "isbn").

(** *** The request body *)

(** What a request carries where a handler calls [request.get_json()]: no
    JSON at all (no body, or a content type that is not JSON), a JSON
    content type over bytes that do not parse, or a JSON document, [null]
    or an object. *)
Inductive request_body :=
  | NoJson
  | BadJson
  | Json (data : option (gmap string pyval)).

(** [request.get_json()] (Flask 2.1 and later): a request that is not JSON
    is aborted with 415 Unsupported Media Type, one that does not parse
    with 400 Bad Request.  Both are answered by the framework's error page;
    the handler's statements after the call are not run. *)
Definition get_json (b : request_body) : Z + option (gmap string pyval) :=
  match b with
  | NoJson => inl 415
  | BadJson => inl 400
  | Json data => inr data
  end.

(** What the client gets: the framework's error page for an aborted
    request, or what the handler returned (or raised). *)
Inductive answer :=
  | Abort (status : Z)
  | Answer (o : outcome).

(** The four mutation routes from the request body on.  The POST handlers
    call [get_json] first; the PUT handlers look the row up first and
    return 404 before they touch the body. *)
Definition post_authors (st : db) (b : request_body) : answer * db :=
  match get_json b with
  | inl status => (Abort status, st)
  | inr data => let r := create_author st data in (Answer r.1, r.2)
  end.

Definition post_books (st : db) (now : string) (b : request_body)
  : answer * db :=
  match get_json b with
  | inl status => (Abort status, st)
  | inr data => let r := create_book st now data in (Answer r.1, r.2)
  end.

Definition put_author (st : db) (id : Z) (b : request_body) : answer * db :=
  match authors st !! id with
  | None =>
      (Answer (Response 404 (JDict [("success", JBool false);
                                    ("error", JVal (PStr "Author not found"))])),
       st)
  | Some _ =>
      match get_json b with
      | inl status => (Abort status, st)
      | inr data => let r := update_author st id data in (Answer r.1, r.2)
      end
  end.

Definition put_book (st : db) (id : Z) (b : request_body) : answer * db :=
  match books st !! id with
  | None =>
      (Answer (Response 404 (JDict [("success", JBool false);
                                    ("error", JVal (PStr "Book not found"))])),
       st)
  | Some _ =>
      match get_json b with
      | inl status => (Abort status, st)
      | inr data => let r := update_book st id data in (Answer r.1, r.2)
      end
  end.

(** *** Seeding *)

(** How [init_db] can end: with the store it leaves, or in the [KeyError] of
    a name missing from its name-to-id dictionary, or in an exception of
    the table layer. *)
Inductive init_outcome :=
  | Seeded (st : db)
  | KeyError (key : string)
  | Failed (e : exn).

(** [db.session.add_all(rows); db.session.commit()]: the rows are inserted
    in order, all or none. *)
Fixpoint add_all_authors (au : gmap Z Author.t) (rows : list Author.t)
  : exn + gmap Z Author.t :=
  match rows with
  | [] => inr au
  | a :: rows =>
      match insert_author au a with
      | inl e => inl e
      | inr (_, au') => add_all_authors au' rows
      end
  end.

Fixpoint add_all_books (bs : gmap Z Book.t) (rows : list Book.t)
  : exn + gmap Z Book.t :=
  match rows with
  | [] => inr bs
  | b :: rows =>
      match insert_book bs b with
      | inl e => inl e
      | inr (_, bs') => add_all_books bs' rows
      end
  end.

Definition sample_author_rows : list Author.t :=
  [ Author.mk (PStr "Eric Matthes") (PStr "Python educator and author")
              (PStr "Anchorage");
    Author.mk (PStr "Miguel Grinberg")
              (PStr "Flask expert and software engineer") (PStr "Portland");
    Author.mk (PStr "Robert C. Martin") (PStr "Software engineer and author")
              (PStr "Illinois");
    Author.mk (PStr "J.K. Rowling") (PStr "Author of Harry Potter series")
              (PStr "London");
    Author.mk (PStr "George Orwell") (PStr "English novelist and essayist")
              (PStr "London") ].

(** [authors[name]] in the dictionary
    [{author.name: author.id for author in Author.query.all()}]: the id of
    the last author of that name. *)
Definition author_id_by_name (au : gmap Z Author.t) (name : string)
  : option Z :=
  fst <$> last (filter (λ ka, Author.name ka.2 = PStr name) (all_rows au)).

(** The [sample_books] list: title, author's name, year, isbn. *)
Definition sample_book_specs : list (string * string * Z * string) :=
  [ ("Python Crash Course", "Eric Matthes", 2019, "978-1593279288");
    ("Flask Web Development", "Miguel Grinberg", 2018, "978-1491991732");
    ("Clean Code", "Robert C. Martin", 2008, "978-0132350884");
    ("Harry Potter and the Philosopher's Stone", "J.K. Rowling", 1997,
     "978-0747532743");
    ("1984", "George Orwell", 1949, "978-0451524935");
    ("Animal Farm", "George Orwell", 1945, "978-0451526342");
    ("Python for Everybody", "Eric Matthes", 2016, "978-1530051120");
    ("Flask API Development", "Miguel Grinberg", 2021, "978-1484270894") ].

(** Building the list evaluates the dictionary lookups one after the other;
    the first name that is missing raises.  [now i] is the clock reading
    that becomes the [created_at] of the [i]-th row when it is inserted. *)
Fixpoint build_sample_books (au : gmap Z Author.t) (now : nat → string)
    (i : nat) (specs : list (string * string * Z * string))
  : string + list Book.t :=
  match specs with
  | [] => inr []
  | (title, name, year, isbn) :: specs =>
      match author_id_by_name au name with
      | None => inl name
      | Some id =>
          match build_sample_books au now (S i) specs with
          | inl missing => inl missing
          | inr rows =>
              inr (Book.mk (PStr title) (PInt id) (PInt year) (PStr isbn)
                           (PStr (now i)) :: rows)
          end
      end
  end.

(** [init_db], after [db.create_all()] *)
Definition init_db (st : db) (now : nat → string) : init_outcome :=
  let seeded_authors :=
    if bool_decide (size (authors st) = 0%nat)
    then add_all_authors (authors st) sample_author_rows
    else inr (authors st) in
  match seeded_authors with
  | inl e => Failed e
  | inr au =>
      if bool_decide (size (books st) = 0%nat) then
        match build_sample_books au now 0 sample_book_specs with
        | inl missing => KeyError missing
        | inr rows =>
            match add_all_books (books st) rows with
            | inl e => Failed e
            | inr bs => Seeded (mkdb au bs)
            end
        end
      else Seeded (mkdb au (books st))
  end.

End Part4.

(** * Properties *)

(** ** The table layer *)

Section tables.
Context {A : Type}.
Implicit Types (m : gmap Z A) (k : Z) (x : A).

Lemma elem_of_all_rows m k x : (k, x) ∈ all_rows m ↔ m !! k = Some x.
Proof.
  unfold all_rows. rewrite merge_sort_Permutation.
  apply elem_of_map_to_list.
Qed.

Lemma length_all_rows m : length (all_rows m) = size m.
Proof.
  unfold all_rows. rewrite merge_sort_Permutation.
  apply length_map_to_list.
Qed.

Lemma max_key_bounds m k x :
  m !! k = Some x → ∃ top, max_key m = Some top ∧ k ≤ top.
Proof.
  unfold max_key. revert k x.
  apply (map_fold_weak_ind
           (λ r m, ∀ k x, m !! k = Some x → ∃ top, r = Some top ∧ k ≤ top)).
  - intros k x Hk. by rewrite lookup_empty in Hk.
  - intros i y m' r Hi IH k x Hk.
    destruct (decide (i = k)) as [->|Hne].
    + destruct r as [top|]; eexists; split; try done; lia.
    + rewrite lookup_insert_ne in Hk by done.
      destruct (IH k x Hk) as (top & -> & Hle).
      eexists; split; [done|lia].
Qed.

Lemma next_id_fresh m : m !! next_id m = None.
Proof.
  destruct (m !! next_id m) as [x|] eqn:Hk; [|done].
  apply max_key_bounds in Hk as (top & Htop & Hle).
  unfold next_id in Hle. rewrite Htop in Hle. lia.
Qed.

Lemma next_id_distinct m k x : m !! k = Some x → next_id m ≠ k.
Proof. intros Hk Heq. rewrite <- Heq, next_id_fresh in Hk. done. Qed.

Lemma existsb_map_to_list (P : Z * A → bool) m :
  existsb P (map_to_list m) = true ↔ ∃ k x, m !! k = Some x ∧ P (k, x) = true.
Proof.
  rewrite existsb_exists. split.
  - intros ([k x] & Hin & HP). exists k, x. split; [|done].
    by apply elem_of_map_to_list, list_elem_of_In.
  - intros (k & x & Hk & HP). exists (k, x). split; [|done].
    by apply list_elem_of_In, elem_of_map_to_list.
Qed.

End tables.

(** ** Part 4 *)

Section part4.
Import Part4.
Implicit Types (st : db) (d : gmap string pyval) (v : pyval) (id k : Z).

Lemma no_data_Some d (f : string) v : d !! f = Some v → no_data (Some d) = false.
Proof.
  intros Hk. simpl. apply bool_decide_eq_false. intros ->.
  by rewrite lookup_empty in Hk.
Qed.

Lemma dict_get_Some d (f : string) v : d !! f = Some v → dict_get d f = v.
Proof. unfold dict_get. by intros ->. Qed.

(** C1, as amended.  A POST /api/books whose body names an [author_id] (an
    integer the key column can hold, or null) that no Author row has is
    answered with HTTP 400 and an error envelope, and the store is left as
    it was.  The message is "Author not found" when the body also carries a
    non-empty title and the [author_id] is itself non-empty (not 0);
    otherwise the required-field check answers first. *)
Theorem create_book_unknown_author st now d v :
  d !! "author_id" = Some v →
  int_value v →
  author_get st v = None →
  create_book st now (Some d) =
    (Response 400
       (error_body (if truthy (dict_get d "title") && truthy v
                    then "Author not found"
                    else "Title and author_id are required")), st).
Proof.
  intros Hd _ Hget. unfold create_book.
  rewrite (no_data_Some _ _ _ Hd). cbn [default from_option Datatypes.id].
  rewrite (dict_get_Some _ _ _ Hd).
  destruct (truthy (dict_get d "title")), (truthy v); cbn; try done.
  by rewrite Hget.
Qed.

Lemma create_book_unknown_author_witness :
  create_book seeded "2024-06-01T12:00:00"
    (Some {[ "title" := PStr "New Book"; "author_id" := PInt 9999 ]}) =
  (Response 400 (error_body "Author not found"), seeded).
Proof.
  assert (int_value (PInt 9999)) as Hint by (cbn; unfold sqlite_int; lia).
  exact (create_book_unknown_author seeded "2024-06-01T12:00:00"
           {[ "title" := PStr "New Book"; "author_id" := PInt 9999 ]}
           (PInt 9999) eq_refl Hint eq_refl).
Defined.

(** C1 as first stated fails: without a title the same unknown [author_id]
    is answered by the required-field check, not by "Author not found". *)
Lemma create_book_unknown_author_untitled :
  let d : gmap string pyval := {[ "author_id" := PInt 9999 ]} in
  d !! "author_id" = Some (PInt 9999) ∧
  author_get seeded (PInt 9999) = None ∧
  (create_book seeded "2024-06-01T12:00:00" (Some d)).1
    = Response 400 (error_body "Title and author_id are required") ∧
  (create_book seeded "2024-06-01T12:00:00" (Some d)).1
    ≠ Response 400 (error_body "Author not found").
Proof. cbv zeta. split_and!; [reflexivity..|]. vm_compute. discriminate. Qed.

(** C8.  A PUT on an id that matches no row is answered 404 with an error
    envelope, whatever the body, and the store (both tables) is exactly what
    it was.  The id is one the lookup can bind. *)
Theorem update_missing_row_not_found st id data :
  sqlite_int id →
  (books st !! id = None →
   update_book st id data = (Response 404 (error_body "Book not found"), st)) ∧
  (authors st !! id = None →
   update_author st id data
     = (Response 404 (error_body "Author not found"), st)).
Proof.
  intros _.
  split; intros Hid; [unfold update_book | unfold update_author];
    by rewrite Hid.
Qed.

Lemma update_missing_row_not_found_witness :
  update_book seeded 42 (Some {[ "title" := PStr "Ghost" ]})
    = (Response 404 (error_body "Book not found"), seeded) ∧
  update_author seeded 42 (Some {[ "name" := PStr "Nobody" ]})
    = (Response 404 (error_body "Author not found"), seeded).
Proof.
  assert (sqlite_int 42) as Hid by (unfold sqlite_int; lia).
  split.
  - exact (proj1 (update_missing_row_not_found seeded 42
                    (Some {[ "title" := PStr "Ghost" ]}) Hid) eq_refl).
  - exact (proj2 (update_missing_row_not_found seeded 42
                    (Some {[ "name" := PStr "Nobody" ]}) Hid) eq_refl).
Defined.

Lemma put_author_json st id data :
  put_author st id (Json data)
    = (Answer (update_author st id data).1, (update_author st id data).2).
Proof. unfold put_author, update_author. by destruct (authors st !! id). Qed.

Lemma put_book_json st id data :
  put_book st id (Json data)
    = (Answer (update_book st id data).1, (update_book st id data).2).
Proof. unfold put_book, update_book. by destruct (books st !! id). Qed.

(** C10, as amended.  On the two POST routes, and on the two PUT routes when
    the addressed row exists, a body that parses to the empty object is
    answered HTTP 400 "No data provided" with the store unchanged, which is
    exactly the answer to a body holding the JSON value [null].  (A PUT on
    an id that matches no row is answered 404 before the body is looked
    at.) *)
Theorem empty_object_is_no_data st now id :
  (post_authors st (Json (Some ∅))
     = (Answer (Response 400 (error_body "No data provided")), st)
   ∧ post_authors st (Json (Some ∅)) = post_authors st (Json None)) ∧
  (post_books st now (Json (Some ∅))
     = (Answer (Response 400 (error_body "No data provided")), st)
   ∧ post_books st now (Json (Some ∅)) = post_books st now (Json None)) ∧
  (is_Some (authors st !! id) →
   put_author st id (Json (Some ∅))
     = (Answer (Response 400 (error_body "No data provided")), st)
   ∧ put_author st id (Json (Some ∅)) = put_author st id (Json None)) ∧
  (is_Some (books st !! id) →
   put_book st id (Json (Some ∅))
     = (Answer (Response 400 (error_body "No data provided")), st)
   ∧ put_book st id (Json (Some ∅)) = put_book st id (Json None)).
Proof.
  split_and!; try done.
  - intros [a Ha]. rewrite !put_author_json. unfold update_author.
    rewrite Ha. done.
  - intros [b Hb]. rewrite !put_book_json. unfold update_book.
    rewrite Hb. done.
Qed.

Lemma empty_object_is_no_data_witness :
  put_author seeded 1 (Json (Some ∅))
    = (Answer (Response 400 (error_body "No data provided")), seeded) ∧
  put_book seeded 1 (Json (Some ∅))
    = (Answer (Response 400 (error_body "No data provided")), seeded).
Proof.
  pose proof (empty_object_is_no_data seeded "2024-06-01T12:00:00" 1)
    as (_ & _ & Ha & Hb).
  split.
  - apply Ha. vm_compute. eauto.
  - apply Hb. vm_compute. eauto.
Defined.

(** C10 as first stated fails twice.  On the PUT routes, with an id that
    matches no row, the empty object is answered 404 "Author not found",
    not 400 "No data provided".  And on every route the empty object is not
    answered like an absent or a non-parseable body: those are aborted by
    [get_json] with 415 and 400 before the handler's own check, and get the
    framework's error page, not the "No data provided" envelope. *)
Lemma empty_object_not_like_absent_body :
  (authors seeded !! 9999 = None ∧
   put_author seeded 9999 (Json (Some ∅))
     = (Answer (Response 404 (error_body "Author not found")), seeded) ∧
   (put_author seeded 9999 (Json (Some ∅))).1
     ≠ Answer (Response 400 (error_body "No data provided"))) ∧
  (post_authors seeded (Json (Some ∅))
     = (Answer (Response 400 (error_body "No data provided")), seeded) ∧
   post_authors seeded NoJson = (Abort 415, seeded) ∧
   post_authors seeded BadJson = (Abort 400, seeded) ∧
   post_authors seeded NoJson ≠ post_authors seeded (Json (Some ∅)) ∧
   post_authors seeded BadJson ≠ post_authors seeded (Json (Some ∅))) ∧
  (is_Some (books seeded !! 1) ∧
   put_book seeded 1 (Json (Some ∅))
     = (Answer (Response 400 (error_body "No data provided")), seeded) ∧
   put_book seeded 1 NoJson = (Abort 415, seeded) ∧
   put_book seeded 1 BadJson = (Abort 400, seeded)).
Proof.
  split_and!; try reflexivity; try (vm_compute; discriminate).
  vm_compute. eauto.
Qed.

Lemma lookup_foldr_delete (l : list (Z * Book.t)) (m : gmap Z Book.t) k :
  foldr (λ kb m, delete kb.1 m) m l !! k =
    if decide (k ∈ l.*1) then None else m !! k.
Proof.
  induction l as [|[k' b'] l IH]; cbn [foldr fmap list_fmap fst].
  - case_decide as Hin; [by apply elem_of_nil in Hin | done].
  - destruct (decide (k' = k)) as [->|Hne].
    + rewrite lookup_delete_eq. rewrite decide_True; [done | left].
    + rewrite lookup_delete_ne by done. rewrite IH.
      apply decide_ext. rewrite elem_of_cons.
      split; [by right | intros [Heq|Hin]; [congruence | done]].
Qed.

Lemma elem_of_author_books st id k (b : Book.t) :
  (k, b) ∈ author_books st id ↔
  books st !! k = Some b ∧ Book.author_id b = PInt id.
Proof.
  unfold author_books. rewrite list_elem_of_filter, elem_of_all_rows.
  cbn. tauto.
Qed.

(** C2.  DELETE /api/authors/<id> on an existing author reports success,
    removes the author, and leaves no Book whose [author_id] is that id; the
    books of other authors stay. *)
Theorem delete_author_cascades st id (a : Author.t) :
  authors st !! id = Some a →
  ∃ st',
    delete_author st id =
      (Response 200
         (JDict [("success", JBool true);
                 ("message",
                  JVal (PStr "Author and associated books deleted successfully"))]),
       st') ∧
    authors st' !! id = None ∧
    (∀ k b, books st' !! k = Some b → Book.author_id b ≠ PInt id) ∧
    (∀ k b, books st !! k = Some b → Book.author_id b ≠ PInt id →
            books st' !! k = Some b).
Proof.
  intros Ha. unfold delete_author. rewrite Ha.
  eexists. split; [reflexivity|]. cbn [authors books].
  split; [apply lookup_delete_eq|]. split.
  - intros k b. rewrite lookup_foldr_delete.
    case_decide as Hin; [done|]. intros Hk Hid. apply Hin.
    apply list_elem_of_fmap. exists (k, b). split; [done|].
    by apply elem_of_author_books.
  - intros k b Hk Hid. rewrite lookup_foldr_delete.
    case_decide as Hin; [|done]. exfalso.
    apply list_elem_of_fmap in Hin as ([k' b'] & -> & Hin).
    apply elem_of_author_books in Hin as [Hk' Hid']. cbn in Hk.
    congruence.
Qed.

Lemma delete_author_cascades_witness :
  ∃ st',
    delete_author seeded 5 =
      (Response 200
         (JDict [("success", JBool true);
                 ("message",
                  JVal (PStr "Author and associated books deleted successfully"))]),
       st') ∧
    authors st' !! 5 = None ∧
    (∀ k b, books st' !! k = Some b → Book.author_id b ≠ PInt 5) ∧
    (∀ k b, books seeded !! k = Some b → Book.author_id b ≠ PInt 5 →
            books st' !! k = Some b).
Proof.
  apply (delete_author_cascades seeded 5
           (Author.mk (PStr "George Orwell")
                      (PStr "English novelist and essayist") (PStr "London"))).
  reflexivity.
Defined.

(** *** What a flush can do *)

Lemma isbn_taken_true (bs : gmap Z Book.t) id v :
  isbn_taken bs id v = true ↔
  v ≠ PNone ∧ ∃ k b, bs !! k = Some b ∧ k ≠ id ∧ Book.isbn b = v.
Proof.
  unfold isbn_taken. rewrite andb_true_iff, bool_decide_eq_true.
  rewrite existsb_map_to_list. split.
  - intros [Hv (k & b & Hk & HP)]. apply bool_decide_eq_true in HP as [? ?].
    eauto 10.
  - intros [Hv (k & b & Hk & Hne & Hb)]. split; [done|].
    exists k, b. split; [done|]. by apply bool_decide_eq_true.
Qed.

Lemma flush_book_inl (bs : gmap Z Book.t) id old new e :
  flush_book bs id old new = inl e → e = IntegrityError.
Proof. unfold flush_book. repeat case_match; congruence. Qed.

Lemma flush_book_inr (bs bs' : gmap Z Book.t) id old new :
  flush_book bs id old new = inr bs' → bs' = <[id := new]> bs.
Proof. unfold flush_book. repeat case_match; congruence. Qed.

Lemma flush_book_isbn_conflict (bs : gmap Z Book.t) id old new k b :
  bs !! k = Some b → k ≠ id →
  Book.isbn b = Book.isbn new →
  Book.isbn new ≠ PNone →
  Book.isbn new ≠ Book.isbn old →
  flush_book bs id old new = inl IntegrityError.
Proof.
  intros Hk Hne Hb Hnull Hchg. unfold flush_book.
  repeat case_match; try done.
  assert (isbn_taken bs id (Book.isbn new) = true) as Htaken
    by (apply isbn_taken_true; eauto 10).
  rewrite Htaken, andb_true_r in *.
  match goal with H : bool_decide _ = false |- _ =>
    apply bool_decide_eq_false in H; by destruct H end.
Qed.

Lemma flush_book_same (bs : gmap Z Book.t) id old :
  flush_book bs id old old = inr (<[id := old]> bs).
Proof.
  unfold flush_book.
  rewrite !bool_decide_eq_false_2; [done | tauto..].
Qed.

Lemma flush_book_title_only (bs : gmap Z Book.t) id old t e :
  flush_book bs id old (Book.set_title t old) = inl e → t = PNone.
Proof.
  unfold flush_book. cbn.
  case_bool_decide as Ht; [tauto|].
  rewrite !bool_decide_eq_false_2; [done | tauto..].
Qed.

(** The foreign key is re-validated on PUT /api/books/<id>: for an existing
    book and a body whose values the columns take as sent, an [author_id]
    that no Author row has is refused with HTTP 400 "Author not found" (or,
    when the same body also sets the title to null, with the
    [IntegrityError] that write raises first), and the store is what it
    was. *)
Lemma update_book_unknown_author st id (old : Book.t) d v :
  books st !! id = Some old →
  book_fields_typed d →
  d !! "author_id" = Some v → author_get st v = None →
  ∃ o, update_book st id (Some d) = (o, st) ∧ rejected o ∧
       (o = Raised IntegrityError
        ∨ o = Response 400 (error_body "Author not found")) ∧
       (d !! "title" ≠ Some PNone →
        o = Response 400 (error_body "Author not found")).
Proof.
  intros Hold _ Hd Hget. unfold update_book.
  rewrite Hold, (no_data_Some _ _ _ Hd). cbn [default from_option Datatypes.id].
  rewrite Hd.
  destruct (flush_book _ _ _ _) as [e|tx] eqn:Hflush.
  - apply flush_book_inl in Hflush as Heq. subst e.
    eexists. split; [reflexivity|]. split; [done|]. split; [by left|].
    intros Htitle. exfalso. destruct (d !! "title") as [t|].
    + apply flush_book_title_only in Hflush as ->. done.
    + by rewrite flush_book_same in Hflush.
  - rewrite Hget. eexists. split; [reflexivity|].
    split; [by split|]. split; [by right|done].
Qed.

Lemma seeded_isbn_unique : isbn_unique (books seeded).
Proof.
  assert (map_Forall (λ k1 b1,
            map_Forall (λ k2 b2,
              Book.isbn b1 = Book.isbn b2 → Book.isbn b1 ≠ PNone → k1 = k2)
              (books seeded)) (books seeded)) as Hall
    by (apply (bool_decide_unpack _); vm_compute; exact I).
  intros k1 k2 b1 b2 H1 H2. exact (Hall k1 b1 H1 k2 b2 H2).
Qed.

Lemma no_data_nonempty d : d ≠ ∅ → no_data (Some d) = false.
Proof. intros Hd. by apply bool_decide_eq_false. Qed.

Lemma singleton_nonempty (f : string) v :
  ({[ f := v ]} : gmap string pyval) ≠ ∅.
Proof. apply (insert_non_empty (M := gmap string)). Qed.

Lemma flush_author_inr (au au' : gmap Z Author.t) id old new :
  flush_author au id old new = inr au' → au' = <[id := new]> au.
Proof. unfold flush_author. case_match; congruence. Qed.

(** C7.  A PUT with a non-empty body on an existing row leaves every column
    the body does not name as it was ([created_at] is never written); the
    other rows of the table and the other table are untouched as well.  This
    holds whether the update goes through or is refused. *)
Theorem update_keeps_absent_fields st id d :
  d ≠ ∅ →
  (∀ old : Book.t, books st !! id = Some old →
     let st' := (update_book st id (Some d)).2 in
     (∃ new, books st' !! id = Some new ∧
        (d !! "title" = None → Book.title new = Book.title old) ∧
        (d !! "author_id" = None → Book.author_id new = Book.author_id old) ∧
        (d !! "year" = None → Book.year new = Book.year old) ∧
        (d !! "isbn" = None → Book.isbn new = Book.isbn old) ∧
        Book.created_at new = Book.created_at old) ∧
     (∀ k, k ≠ id → books st' !! k = books st !! k) ∧
     authors st' = authors st) ∧
  (∀ old : Author.t, authors st !! id = Some old →
     let st' := (update_author st id (Some d)).2 in
     (∃ new, authors st' !! id = Some new ∧
        (d !! "name" = None → Author.name new = Author.name old) ∧
        (d !! "bio" = None → Author.bio new = Author.bio old) ∧
        (d !! "city" = None → Author.city new = Author.city old)) ∧
     (∀ k, k ≠ id → authors st' !! k = authors st !! k) ∧
     books st' = books st).
Proof.
  intros Hd. split; intros old Hold; cbv zeta.
  - unfold update_book.
    rewrite Hold, (no_data_nonempty _ Hd). cbn [default from_option Datatypes.id].
    assert (∃ new, books st !! id = Some new ∧
        (d !! "title" = None → Book.title new = Book.title old) ∧
        (d !! "author_id" = None → Book.author_id new = Book.author_id old) ∧
        (d !! "year" = None → Book.year new = Book.year old) ∧
        (d !! "isbn" = None → Book.isbn new = Book.isbn old) ∧
        Book.created_at new = Book.created_at old) as Hsame
      by (exists old; done).
    destruct (d !! "author_id") as [w|] eqn:Hw.
    + destruct (flush_book (books st) _ _ _) as [e|tx] eqn:Hflush; [done|].
      destruct (author_get st w); [|done]. cbn.
      destruct (flush_book tx _ _ _) as [e|bs] eqn:Hcommit; [done|].
      apply flush_book_inr in Hflush as ->.
      apply flush_book_inr in Hcommit as ->. cbn.
      split_and!; [|by intros; rewrite !lookup_insert_ne|done].
      rewrite lookup_insert_eq. eexists. split; [done|].
      destruct (d !! "title"), (d !! "year"), (d !! "isbn"); cbn;
        split_and!; done.
    + destruct (flush_book _ _ _ _) as [e|bs] eqn:Hcommit; [done|].
      apply flush_book_inr in Hcommit as ->. cbn.
      split_and!; [|by intros; rewrite lookup_insert_ne|done].
      rewrite lookup_insert_eq. eexists. split; [done|].
      destruct (d !! "title"), (d !! "year"), (d !! "isbn"); cbn;
        split_and!; done.
  - unfold update_author.
    rewrite Hold, (no_data_nonempty _ Hd). cbn [default from_option Datatypes.id].
    destruct (flush_author _ _ _ _) as [e|au] eqn:Hcommit.
    + cbn. split_and!; try done. by exists old.
    + apply flush_author_inr in Hcommit as ->. cbn.
      split_and!; [|by intros; rewrite lookup_insert_ne|done].
      rewrite lookup_insert_eq. eexists. split; [done|].
      destruct (d !! "name"), (d !! "bio"), (d !! "city"); cbn;
        split_and!; done.
Qed.

Lemma update_keeps_absent_fields_witness :
  (let st' := (update_book seeded 1 (Some {[ "year" := PInt 2023 ]})).2 in
   ∃ new, books st' !! 1 = Some new ∧
          Book.title new = PStr "Python Crash Course" ∧
          Book.author_id new = PInt 1 ∧
          Book.isbn new = PStr "978-1593279288") ∧
  (let st' := (update_author seeded 5 (Some {[ "city" := PStr "Jura" ]})).2 in
   ∃ new, authors st' !! 5 = Some new ∧
          Author.name new = PStr "George Orwell" ∧
          Author.bio new = PStr "English novelist and essayist").
Proof.
  cbv zeta. split.
  - destruct (proj1 (update_keeps_absent_fields seeded 1
                       {[ "year" := PInt 2023 ]} (singleton_nonempty _ _))
                (Book.mk (PStr "Python Crash Course") (PInt 1) (PInt 2019)
                   (PStr "978-1593279288") (PStr "2024-01-01T00:00:00"))
                eq_refl)
      as [(new & Hnew & Htitle & Hauthor & _ & Hisbn & _) _].
    exists new.
    split_and!; [exact Hnew | exact (Htitle eq_refl)
                 | exact (Hauthor eq_refl) | exact (Hisbn eq_refl)].
  - destruct (proj2 (update_keeps_absent_fields seeded 5
                       {[ "city" := PStr "Jura" ]} (singleton_nonempty _ _))
                (Author.mk (PStr "George Orwell")
                   (PStr "English novelist and essayist") (PStr "London"))
                eq_refl)
      as [(new & Hnew & Hname & Hbio & _) _].
    exists new.
    split_and!; [exact Hnew | exact (Hname eq_refl) | exact (Hbio eq_refl)].
Defined.

Lemma truthy_not_None v : truthy v = true → v ≠ PNone.
Proof. by intros Hv ->. Qed.

Lemma truthy_dict_get d (f : string) :
  truthy (dict_get d f) = true → no_data (Some d) = false.
Proof.
  unfold dict_get. destruct (d !! f) as [v|] eqn:Hf; [|done].
  intros _. by eapply no_data_Some.
Qed.

Lemma head_filter_by_isbn st v :
  is_Some (head (filter_by_isbn st v)) ↔
  ∃ k b, books st !! k = Some b ∧ Book.isbn b = v.
Proof.
  rewrite head_is_Some. unfold filter_by_isbn. split.
  - intros Hne.
    destruct (filter _ _) as [|[k b] l] eqn:Hl; [done|].
    assert ((k, b) ∈ filter (λ kb : Z * Book.t, Book.isbn kb.2 = v)
                       (all_rows (books st))) as Hin
      by (rewrite Hl; left).
    apply list_elem_of_filter in Hin as [Hb Hin].
    apply elem_of_all_rows in Hin. eauto.
  - intros (k & b & Hk & Hb) Hnil.
    eapply (filter_nil_not_elem_of _ _ (k, b)); [exact Hnil|exact Hb|].
    by apply elem_of_all_rows.
Qed.

(** C4.  The uniqueness constraint is not re-validated by
    PUT /api/books/<id>: the handler assigns the [isbn] it is sent without
    looking for another holder, and it is the UNIQUE index that refuses the
    write at commit, with an [IntegrityError] nothing catches; the store is
    what it was.  POST /api/books does look: for the same [isbn] it answers
    400 "ISBN already exists". *)
Theorem update_book_duplicate_isbn st id (old : Book.t) s k (b : Book.t) :
  books st !! id = Some old →
  isbn_unique (books st) →
  k ≠ id → books st !! k = Some b → Book.isbn b = PStr s →
  update_book st id (Some {[ "isbn" := PStr s ]})
    = (Raised IntegrityError, st) ∧
  (s ≠ "" →
   ∀ now d a,
     d !! "isbn" = Some (PStr s) →
     truthy (dict_get d "title") = true →
     truthy (dict_get d "author_id") = true →
     author_get st (dict_get d "author_id") = Some a →
     create_book st now (Some d)
       = (Response 400 (error_body "ISBN already exists"), st)).
Proof.
  intros Hold Huniq Hne Hk Hb.
  assert (Book.isbn old ≠ PStr s) as Hchg.
  { intros Heq. apply Hne. apply (Huniq k id b old); congruence. }
  split.
  - unfold update_book. rewrite Hold.
    rewrite (no_data_Some _ "isbn" (PStr s)) by apply lookup_singleton_eq.
    cbn [default from_option Datatypes.id].
    rewrite !lookup_singleton_ne by done. rewrite lookup_singleton_eq.
    by rewrite (flush_book_isbn_conflict _ id _ _ k b).
  - intros Hs now d a Hd Htitle Hauthor Ha. unfold create_book.
    rewrite (truthy_dict_get _ _ Htitle).
    cbn [default from_option Datatypes.id].
    rewrite Htitle, Hauthor, Ha. cbn [negb orb].
    rewrite (dict_get_Some _ _ _ Hd). cbn [truthy].
    rewrite bool_decide_eq_true_2 by done.
    rewrite bool_decide_eq_true_2; [done|].
    apply head_filter_by_isbn. eauto.
Qed.

Lemma update_book_duplicate_isbn_witness :
  update_book seeded 1 (Some {[ "isbn" := PStr "978-1491991732" ]})
    = (Raised IntegrityError, seeded) ∧
  create_book seeded "2024-06-01T12:00:00"
    (Some {[ "title" := PStr "Another Flask Book"; "author_id" := PInt 2;
             "isbn" := PStr "978-1491991732" ]})
    = (Response 400 (error_body "ISBN already exists"), seeded).
Proof.
  assert (books seeded !! 1
          = Some (Book.mk (PStr "Python Crash Course") (PInt 1) (PInt 2019)
                    (PStr "978-1593279288") (PStr "2024-01-01T00:00:00")))
    as Hold by reflexivity.
  assert (books seeded !! 2
          = Some (Book.mk (PStr "Flask Web Development") (PInt 2) (PInt 2018)
                    (PStr "978-1491991732") (PStr "2024-01-01T00:00:00")))
    as Hother by reflexivity.
  destruct (update_book_duplicate_isbn seeded 1 _ "978-1491991732" 2 _
              Hold seeded_isbn_unique ltac:(lia) Hother eq_refl)
    as [Hput Hpost].
  split; [exact Hput|].
  set (d := ({[ "title" := PStr "Another Flask Book"; "author_id" := PInt 2;
                "isbn" := PStr "978-1491991732" ]} : gmap string pyval)).
  assert (d !! "isbn" = Some (PStr "978-1491991732")) as Hd by reflexivity.
  assert (truthy (dict_get d "title") = true) as Htitle by reflexivity.
  assert (truthy (dict_get d "author_id") = true) as Hauthor by reflexivity.
  assert (author_get seeded (dict_get d "author_id")
          = Some (Author.mk (PStr "Miguel Grinberg")
                    (PStr "Flask expert and software engineer")
                    (PStr "Portland"))) as Ha by reflexivity.
  apply (Hpost ltac:(discriminate) "2024-06-01T12:00:00" d _
           Hd Htitle Hauthor Ha).
Defined.

Lemma seeded_books_have_authors : books_have_authors seeded.
Proof.
  assert (map_Forall (λ _ b, is_Some (author_get seeded (Book.author_id b)))
                     (books seeded)) as Hall
    by (apply (bool_decide_unpack _); vm_compute; exact I).
  intros k b Hk. exact (Hall k b Hk).
Qed.

(** C9.  A POST /api/authors with a non-empty name, and a POST /api/books
    with a non-empty title, a non-empty [author_id] that an Author row has,
    and an [isbn] that no book holds, each create one row under a key no row
    had before, holding the values of the body (null for an optional field
    the body leaves out); the answer is HTTP 201 with [success: true], a
    message and the new row's representation: for an author its id, name,
    bio, city and the number of books that carry its id; for a book its id,
    title, author_id, the author's name, year, isbn and the time of
    creation.  A GET on the new key returns that same representation (an
    author's with its list of books).  The other rows are as they were.
    The body's values are of the kind their columns take as sent. *)
Theorem create_yields_fresh_row st now d :
  (truthy (dict_get d "name") = true →
   author_fields_typed d →
   ∃ id st',
     let author :=
       [ ("id", JVal (PInt id));
         ("name", JVal (dict_get d "name"));
         ("bio", JVal (dict_get d "bio"));
         ("city", JVal (dict_get d "city"));
         ("books_count",
          JVal (PInt (Z.of_nat (length (author_books st id))))) ] in
     create_author st (Some d) =
       (Response 201
          (JDict [("success", JBool true);
                  ("message", JVal (PStr "Author created successfully"));
                  ("author", JDict author)]), st') ∧
     authors st !! id = None ∧
     authors st' !! id
       = Some (Author.mk (dict_get d "name") (dict_get d "bio")
                         (dict_get d "city")) ∧
     (∀ k, k ≠ id → authors st' !! k = authors st !! k) ∧
     books st' = books st ∧
     (books_have_authors st → author_books st id = []) ∧
     get_author st' id =
       Response 200
         (JDict [("success", JBool true);
                 ("author",
                  JDict (author ++
                         [("books",
                           JList (map (λ kb, book_to_dict st' kb.1 kb.2)
                                      (author_books st id)))])%list)])) ∧
  (truthy (dict_get d "title") = true →
   truthy (dict_get d "author_id") = true →
   book_fields_typed d →
   ∀ a, author_get st (dict_get d "author_id") = Some a →
   (∀ k b, books st !! k = Some b → Book.isbn b = dict_get d "isbn" →
           dict_get d "isbn" = PNone) →
   ∃ id st',
     let book :=
       JDict [ ("id", JVal (PInt id));
               ("title", JVal (dict_get d "title"));
               ("author_id", JVal (dict_get d "author_id"));
               ("author_name", JVal (Author.name a));
               ("year", JVal (dict_get d "year"));
               ("isbn", JVal (dict_get d "isbn"));
               ("created_at", JVal (PStr now)) ] in
     create_book st now (Some d) =
       (Response 201
          (JDict [("success", JBool true);
                  ("message", JVal (PStr "Book created successfully"));
                  ("book", book)]), st') ∧
     books st !! id = None ∧
     books st' !! id
       = Some (Book.mk (dict_get d "title") (dict_get d "author_id")
                       (dict_get d "year") (dict_get d "isbn") (PStr now)) ∧
     (∀ k, k ≠ id → books st' !! k = books st !! k) ∧
     authors st' = authors st ∧
     get_book st' id =
       Response 200 (JDict [("success", JBool true); ("book", book)])).
Proof.
  split.
  - intros Hname _. unfold create_author.
    rewrite (truthy_dict_get _ _ Hname). cbn [default from_option Datatypes.id].
    rewrite Hname. cbn [negb]. unfold insert_author. cbn [Author.name].
    rewrite bool_decide_eq_false_2 by by apply truthy_not_None.
    eexists _, _. cbv zeta. split; [reflexivity|].
    split; [apply next_id_fresh|]. cbn [authors books].
    split; [apply lookup_insert_eq|].
    split; [by intros; rewrite lookup_insert_ne|].
    split; [done|].
    split.
    + intros Hfk.
      destruct (author_books st _) as [|[k b] l] eqn:Hl; [done|exfalso].
      assert ((k, b) ∈ author_books st (next_id (authors st))) as Hin
        by (rewrite Hl; left).
      apply elem_of_author_books in Hin as [Hk Hb].
      destruct (Hfk k b Hk) as [a Ha]. rewrite Hb in Ha. cbn in Ha.
      by rewrite next_id_fresh in Ha.
    + unfold get_author. cbn [authors]. by rewrite lookup_insert_eq.
  - intros Htitle Hauthor _ a Ha Hisbn. unfold create_book.
    rewrite (truthy_dict_get _ _ Htitle). cbn [default from_option Datatypes.id].
    rewrite Htitle, Hauthor, Ha. cbn [negb orb].
    assert (isbn_taken (books st) (next_id (books st)) (dict_get d "isbn")
            = false) as Hfree.
    { apply not_true_iff_false. rewrite isbn_taken_true.
      intros [Hnull (k & b & Hk & _ & Hb)]. eauto. }
    destruct (truthy (dict_get d "isbn") && _) eqn:Hdup.
    { apply andb_true_iff in Hdup as [Htruthy Hsome].
      apply bool_decide_eq_true, head_filter_by_isbn in Hsome
        as (k & b & Hk & Hb).
      apply truthy_not_None in Htruthy. by destruct Htruthy; eauto. }
    unfold insert_book. cbn [Book.title Book.author_id Book.isbn].
    rewrite !bool_decide_eq_false_2 by by apply truthy_not_None.
    rewrite Hfree.
    assert (author_get (mkdb (authors st)
                          (<[next_id (books st) :=
                               Book.mk (dict_get d "title")
                                 (dict_get d "author_id") (dict_get d "year")
                                 (dict_get d "isbn") (PStr now)]> (books st)))
                       (dict_get d "author_id") = Some a) as Ha' by exact Ha.
    eexists _, _. cbv zeta. split.
    { unfold book_to_dict. cbn [Book.title Book.author_id Book.year Book.isbn
                                 Book.created_at].
      rewrite Ha'. reflexivity. }
    split; [apply next_id_fresh|]. cbn [authors books].
    split; [apply lookup_insert_eq|].
    split; [by intros; rewrite lookup_insert_ne|].
    split; [done|].
    unfold get_book. cbn [books]. rewrite lookup_insert_eq.
    unfold book_to_dict. cbn [Book.title Book.author_id Book.year Book.isbn
                               Book.created_at].
    by rewrite Ha'.
Qed.

Lemma create_yields_fresh_row_witness :
  let now := "2024-06-01T12:00:00" in
  let da : gmap string pyval := {[ "name" := PStr "Ursula K. Le Guin" ]} in
  let db : gmap string pyval :=
    {[ "title" := PStr "New Book"; "author_id" := PInt 1;
       "year" := PInt 2024 ]} in
  (∃ id st',
     create_author seeded (Some da) =
       (Response 201
          (JDict [("success", JBool true);
                  ("message", JVal (PStr "Author created successfully"));
                  ("author",
                   JDict [ ("id", JVal (PInt id));
                           ("name", JVal (PStr "Ursula K. Le Guin"));
                           ("bio", JVal PNone);
                           ("city", JVal PNone);
                           ("books_count", JVal (PInt 0)) ])]), st') ∧
     authors seeded !! id = None ∧
     is_Some (authors st' !! id)) ∧
  (∃ id st',
     create_book seeded now (Some db) =
       (Response 201
          (JDict [("success", JBool true);
                  ("message", JVal (PStr "Book created successfully"));
                  ("book",
                   JDict [ ("id", JVal (PInt id));
                           ("title", JVal (PStr "New Book"));
                           ("author_id", JVal (PInt 1));
                           ("author_name", JVal (PStr "Eric Matthes"));
                           ("year", JVal (PInt 2024));
                           ("isbn", JVal PNone);
                           ("created_at", JVal (PStr now)) ])]), st') ∧
     books seeded !! id = None ∧
     is_Some (books st' !! id)).
Proof.
  cbv zeta. split.
  - set (d := ({[ "name" := PStr "Ursula K. Le Guin" ]}
               : gmap string pyval)).
    assert (truthy (dict_get d "name") = true) as Hname by reflexivity.
    assert (author_fields_typed d) as Htyped by (vm_compute; tauto).
    destruct (proj1 (create_yields_fresh_row seeded "2024-06-01T12:00:00" d)
                Hname Htyped)
      as (id & st' & Hcreate & Hfresh & Hrow & _ & _ & Hcount & _).
    exists id, st'. rewrite Hcreate, Hrow.
    rewrite (Hcount seeded_books_have_authors).
    split; [reflexivity|]. eauto.
  - set (d := ({[ "title" := PStr "New Book"; "author_id" := PInt 1;
                  "year" := PInt 2024 ]} : gmap string pyval)).
    assert (truthy (dict_get d "title") = true) as Htitle by reflexivity.
    assert (truthy (dict_get d "author_id") = true) as Hauthor
      by reflexivity.
    assert (book_fields_typed d) as Htyped.
    { repeat split; try exact I; cbn; lia. }
    assert (author_get seeded (dict_get d "author_id")
            = Some (Author.mk (PStr "Eric Matthes")
                      (PStr "Python educator and author") (PStr "Anchorage")))
      as Hget by reflexivity.
    assert (∀ k b, books seeded !! k = Some b →
                   Book.isbn b = dict_get d "isbn" →
                   dict_get d "isbn" = PNone) as Hisbn
      by (intros; reflexivity).
    destruct (proj2 (create_yields_fresh_row seeded "2024-06-01T12:00:00" d)
                Htitle Hauthor Htyped _ Hget Hisbn)
      as (id & st' & Hcreate & Hfresh & Hrow & _).
    exists id, st'. rewrite Hcreate, Hrow.
    split; [reflexivity|]. eauto.
Defined.

(** *** Sorting and pagination *)

Lemma length_order_by col order (rows : list (Z * Book.t)) :
  length (order_by col order rows) = length rows.
Proof.
  unfold order_by. case_decide; apply Permutation_length, merge_sort_Permutation.
Qed.

Lemma length_books_query st sort_by order :
  length (books_query st sort_by order) = size (books st).
Proof.
  unfold books_query. repeat case_decide;
    by rewrite length_order_by, length_all_rows.
Qed.

Lemma ceil_div_bounds n p :
  0 ≤ n → 1 ≤ p →
  let q := if bool_decide (n = 0) then 0 else (n + p - 1) `div` p in
  p * (q - 1) < n ≤ p * q.
Proof.
  intros Hn Hp. cbv zeta. case_bool_decide as H0; [lia|].
  pose proof (Z.mul_div_le (n + p - 1) p ltac:(lia)).
  pose proof (Z.mul_succ_div_gt (n + p - 1) p ltac:(lia)).
  lia.
Qed.

(** C5.  With a page size of at least 1, the [pages] field of
    GET /api/books is the ceiling of (number of books) / (page size), that is
    the one integer [q] with [per_page * (q - 1) < n ≤ per_page * q]; and a
    request for any page beyond it is still answered 200, with an empty
    [books] list.  The page size and the offset of the requested page
    ([(page - 1) * per_page], with a page below 1 read as page 1) are
    integers the query can bind. *)
Theorem get_books_page_count st page per_page sort_by order :
  1 ≤ per_page →
  sqlite_int per_page →
  sqlite_int ((Z.max 1 page - 1) * per_page) →
  let n := Z.of_nat (size (books st)) in
  ∃ body q,
    get_books st page per_page sort_by order = Response 200 body ∧
    field "success" body = Some (JBool true) ∧
    field "count" body = Some (JVal (PInt n)) ∧
    field "pages" body = Some (JVal (PInt q)) ∧
    per_page * (q - 1) < n ≤ per_page * q ∧
    (q < page → field "books" body = Some (JList [])).
Proof.
  intros Hpp _ _ n. unfold get_books. eexists _, _.
  split; [reflexivity|]. cbn [field assoc].
  repeat (rewrite decide_False by done). rewrite !decide_True by done.
  unfold pages, paginate. cbn [total Part4.per_page items].
  rewrite (bool_decide_eq_false_2 (per_page < 1)) by lia.
  rewrite length_books_query. fold n.
  split; [done|]. split; [done|]. split; [done|].
  pose proof (ceil_div_bounds n per_page ltac:(lia) Hpp) as Hceil.
  cbv zeta in Hceil. split; [exact Hceil|].
  intros Hpage. do 2 f_equal.
  rewrite bool_decide_eq_false_2 by (case_bool_decide; nia).
  rewrite drop_ge; [by rewrite take_nil|].
  rewrite length_books_query. subst n. case_bool_decide; nia.
Qed.

Lemma get_books_page_count_witness :
  ∃ body q,
    get_books seeded 4 3 "title" "asc" = Response 200 body ∧
    field "success" body = Some (JBool true) ∧
    field "count" body = Some (JVal (PInt 8)) ∧
    field "pages" body = Some (JVal (PInt q)) ∧
    3 * (q - 1) < 8 ≤ 3 * q ∧
    (q < 4 → field "books" body = Some (JList [])).
Proof.
  assert (sqlite_int 3) as Hlimit by (unfold sqlite_int; lia).
  assert (sqlite_int ((Z.max 1 4 - 1) * 3)) as Hoffset
    by (unfold sqlite_int; lia).
  exact (get_books_page_count seeded 4 3 "title" "asc" ltac:(lia)
           Hlimit Hoffset).
Defined.

Lemma returned_ids_books (st : db) (rows : list (Z * Book.t)) :
  omap dict_id (map (λ kb, book_to_dict st kb.1 kb.2) rows) = rows.*1.
Proof. induction rows as [|[k b] rows IH]; [done|]. cbn. by f_equal. Qed.

Lemma NoDup_all_rows {A} (m : gmap Z A) : NoDup (all_rows m).*1.
Proof.
  unfold all_rows. rewrite merge_sort_Permutation.
  apply NoDup_fst_map_to_list.
Qed.

Lemma StronglySorted_slice {A} (R : relation A) (l : list A) i n :
  StronglySorted R l → StronglySorted R (take n (drop i l)).
Proof.
  intros Hl. rewrite <- (take_drop i l) in Hl.
  apply StronglySorted_app_1_r in Hl.
  rewrite <- (take_drop n (drop i l)) in Hl.
  by apply StronglySorted_app_1_l in Hl.
Qed.

(** Rows sorted by key, with no key twice, carry strictly increasing keys
    (decreasing for the flipped order). *)
Lemma StronglySorted_ids_asc (l : list (Z * Book.t)) :
  NoDup l.*1 →
  Sorted (asc (λ kb, PInt kb.1)) l → StronglySorted Z.lt l.*1.
Proof.
  intros Hnd Hs. apply Sorted_StronglySorted in Hs.
  2:{ intros x y z. unfold asc. cbn. lia. }
  induction Hs as [|[k b] l Hs IH Hall]; cbn; [constructor|].
  apply NoDup_cons in Hnd as [Hk Hnd]. constructor; [by apply IH|].
  apply Forall_fmap, Forall_forall. intros [k' b'] Hin.
  rewrite Forall_forall in Hall. specialize (Hall _ Hin).
  unfold asc in Hall. cbn in *.
  assert (k ≠ k'); [|lia]. intros ->. apply Hk.
  apply list_elem_of_fmap. by exists (k', b').
Qed.

Lemma StronglySorted_ids_desc (l : list (Z * Book.t)) :
  NoDup l.*1 →
  Sorted (desc (λ kb, PInt kb.1)) l → StronglySorted Z.gt l.*1.
Proof.
  intros Hnd Hs. apply Sorted_StronglySorted in Hs.
  2:{ intros x y z. unfold desc. cbn. lia. }
  induction Hs as [|[k b] l Hs IH Hall]; cbn; [constructor|].
  apply NoDup_cons in Hnd as [Hk Hnd]. constructor; [by apply IH|].
  apply Forall_fmap, Forall_forall. intros [k' b'] Hin.
  rewrite Forall_forall in Hall. specialize (Hall _ Hin).
  unfold desc in Hall. cbn in *.
  assert (k ≠ k'); [|lia]. intros ->. apply Hk.
  apply list_elem_of_fmap. by exists (k', b').
Qed.

Lemma books_query_unknown_sort st sort_by order :
  sort_by ∉ allowed_sort_fields →
  books_query st sort_by order
    = order_by (λ kb, PInt kb.1) order (all_rows (books st)).
Proof.
  intros Hsort. unfold books_query.
  rewrite (decide_False (P := sort_by ∈ allowed_sort_fields)) by done.
  reflexivity.
Qed.

(** C6, as amended.  A [sort] value outside the allow-list is treated as
    [sort=id]: the answer is the one [sort=id] gets for the same page, page
    size and order, and the books a 200 answer lists come with strictly
    increasing ids when [order] is 'asc' (the default) and with strictly
    decreasing ids for any other [order]. *)
Theorem get_books_unknown_sort st page per_page sort_by order :
  sort_by ∉ allowed_sort_fields →
  get_books st page per_page sort_by order
    = get_books st page per_page "id" order ∧
  ∀ body,
    get_books st page per_page sort_by order = Response 200 body →
    (order = "asc" → StronglySorted Z.lt (returned_ids body)) ∧
    (order ≠ "asc" → StronglySorted Z.gt (returned_ids body)).
Proof.
  intros Hsort. split.
  - unfold get_books. rewrite (books_query_unknown_sort _ _ _ Hsort). done.
  - unfold get_books. intros body [= <-].
    unfold returned_ids. cbn [field assoc].
    repeat (rewrite decide_False by done). rewrite decide_True by done.
    rewrite returned_ids_books, (books_query_unknown_sort _ _ _ Hsort).
    unfold paginate. cbn [items]. rewrite fmap_take, fmap_drop.
    unfold order_by. split; intros Horder.
    + rewrite decide_True by done. apply StronglySorted_slice.
      apply StronglySorted_ids_asc.
      * rewrite merge_sort_Permutation. apply NoDup_all_rows.
      * apply Sorted_merge_sort. intros x y. unfold asc. cbn. lia.
    + rewrite decide_False by done. apply StronglySorted_slice.
      apply StronglySorted_ids_desc.
      * rewrite merge_sort_Permutation. apply NoDup_all_rows.
      * apply Sorted_merge_sort. intros x y. unfold desc. cbn. lia.
Qed.

Ltac not_in_allow_list :=
  let Hin := fresh "Hin" in
  let Heq := fresh "Heq" in
  vm_compute; intros Hin;
  repeat (apply elem_of_cons in Hin as [Heq|Hin]; [discriminate Heq|]);
  by apply elem_of_nil in Hin.

Lemma get_books_unknown_sort_witness :
  get_books seeded 1 10 "price" "asc" = get_books seeded 1 10 "id" "asc" ∧
  ∃ body,
    get_books seeded 1 10 "price" "asc" = Response 200 body ∧
    returned_ids body = [1; 2; 3; 4; 5; 6; 7; 8] ∧
    StronglySorted Z.lt (returned_ids body).
Proof.
  assert ("price" ∉ allowed_sort_fields) as Hsort by not_in_allow_list.
  destruct (get_books_unknown_sort seeded 1 10 "price" "asc" Hsort)
    as [Hsame Hsorted].
  split; [exact Hsame|].
  assert (∃ body, get_books seeded 1 10 "price" "asc" = Response 200 body ∧
                  returned_ids body = [1; 2; 3; 4; 5; 6; 7; 8])
    as (body & Hbody & Hids)
    by (eexists; split; [vm_compute; reflexivity | reflexivity]).
  exists body. split; [exact Hbody|]. split; [exact Hids|].
  exact (proj1 (Hsorted body Hbody) eq_refl).
Defined.

(** C6 as first stated fails: with [order=desc] an unrecognised sort field
    lists the books by descending id. *)
Lemma get_books_unknown_sort_desc :
  ("price" ∉ allowed_sort_fields) ∧
  ∃ body,
    get_books seeded 1 10 "price" "desc" = Response 200 body ∧
    returned_ids body = [8; 7; 6; 5; 4; 3; 2; 1] ∧
    ¬ Sorted Z.le (returned_ids body).
Proof.
  split.
  - not_in_allow_list.
  - eexists. split; [vm_compute; reflexivity|].
    split; [reflexivity|]. cbn.
    intros Hs. inversion Hs as [|? ? _ Hhd]. inversion Hhd. lia.
Qed.

(** *** The UNIQUE constraint is an invariant of the store *)

Lemma isbn_unique_empty : isbn_unique ∅.
Proof. intros k1 k2 b1 b2 Hk1. by rewrite lookup_empty in Hk1. Qed.

Lemma isbn_unique_insert (bs : gmap Z Book.t) id new :
  isbn_unique bs →
  (∀ k b, bs !! k = Some b → k ≠ id →
          Book.isbn b = Book.isbn new → Book.isbn new = PNone) →
  isbn_unique (<[id := new]> bs).
Proof.
  intros Huniq Hnew k1 k2 b1 b2 Hk1 Hk2 Heq Hnull.
  destruct (decide (k1 = id)) as [->|Hne1], (decide (k2 = id)) as [->|Hne2];
    [done|..].
  - rewrite lookup_insert_eq in Hk1. rewrite lookup_insert_ne in Hk2 by done.
    simplify_eq. destruct Hnull. eauto.
  - rewrite lookup_insert_eq in Hk2. rewrite lookup_insert_ne in Hk1 by done.
    simplify_eq. destruct Hnull. rewrite Heq. eauto.
  - rewrite lookup_insert_ne in Hk1, Hk2 by done. eauto.
Qed.

Lemma isbn_unique_subseteq (bs bs' : gmap Z Book.t) :
  (∀ k b, bs' !! k = Some b → bs !! k = Some b) →
  isbn_unique bs → isbn_unique bs'.
Proof. intros Hsub Huniq k1 k2 b1 b2 Hk1 Hk2. eauto. Qed.

Lemma flush_book_unique (bs bs' : gmap Z Book.t) id old new :
  isbn_unique bs → bs !! id = Some old →
  flush_book bs id old new = inr bs' → isbn_unique bs'.
Proof.
  intros Huniq Hold Hflush.
  apply flush_book_inr in Hflush as Hbs. subst bs'.
  apply isbn_unique_insert; [done|]. intros k b Hk Hne Hb.
  destruct (decide (Book.isbn new = PNone)) as [|Hnull]; [done|exfalso].
  destruct (decide (Book.isbn new = Book.isbn old)) as [Hsame|Hchg].
  - apply Hne. apply (Huniq k id b old); congruence.
  - by rewrite (flush_book_isbn_conflict bs id old new k b) in Hflush.
Qed.

Lemma insert_book_unique (bs bs' : gmap Z Book.t) b id :
  isbn_unique bs → insert_book bs b = inr (id, bs') → isbn_unique bs'.
Proof.
  intros Huniq. unfold insert_book.
  destruct (bool_decide (Book.title b = PNone)); [done|].
  destruct (bool_decide (Book.author_id b = PNone)); [done|].
  destruct (isbn_taken _ _ _) eqn:Htaken; [done|]. intros [= <- <-].
  apply isbn_unique_insert; [done|]. intros k b' Hk Hne Hb.
  destruct (decide (Book.isbn b = PNone)) as [|Hnull]; [done|exfalso].
  apply not_true_iff_false in Htaken. apply Htaken.
  apply isbn_taken_true. eauto 10.
Qed.

(** Every handler keeps the isbn column free of duplicates, so a statement
    that assumes [isbn_unique] speaks about every store the API can reach
    from an empty or a seeded database. *)
Theorem isbn_unique_preserved st :
  isbn_unique (books st) →
  (∀ now data, isbn_unique (books (create_book st now data).2)) ∧
  (∀ id data, isbn_unique (books (update_book st id data).2)) ∧
  (∀ id, isbn_unique (books (delete_book st id).2)) ∧
  (∀ data, isbn_unique (books (create_author st data).2)) ∧
  (∀ id data, isbn_unique (books (update_author st id data).2)) ∧
  (∀ id, isbn_unique (books (delete_author st id).2)).
Proof.
  intros Huniq. split_and!.
  - intros now data. unfold create_book.
    destruct (no_data data); [done|].
    destruct (negb _ || negb _); [done|].
    destruct (author_get st _); [|done].
    destruct (truthy _ && _); [done|].
    destruct (insert_book _ _) as [e|[id bs]] eqn:Hinsert; [done|].
    cbn [snd books]. by eapply insert_book_unique.
  - intros id data. unfold update_book.
    destruct (books st !! id) as [old|] eqn:Hold; [|done].
    destruct (no_data data); [done|].
    destruct (default ∅ data !! "author_id") as [w|].
    + destruct (flush_book (books st) _ _ _) as [e|tx] eqn:Hflush; [done|].
      destruct (author_get st w); [|done].
      destruct (flush_book tx _ _ _) as [e|bs] eqn:Hcommit; [done|].
      cbn [snd books].
      eapply flush_book_unique; [| |exact Hcommit].
      * by eapply flush_book_unique.
      * apply flush_book_inr in Hflush as ->. apply lookup_insert_eq.
    + destruct (flush_book _ _ _ _) as [e|bs] eqn:Hcommit; [done|].
      cbn [snd books]. by eapply flush_book_unique.
  - intros id. unfold delete_book. case_match; [|done]. cbn [snd books].
    eapply isbn_unique_subseteq; [|done].
    intros k b. rewrite lookup_delete_Some. tauto.
  - intros data. unfold create_author. repeat case_match; done.
  - intros id data. unfold update_author. repeat case_match; done.
  - intros id. unfold delete_author. case_match; [|done]. cbn [snd books].
    eapply isbn_unique_subseteq; [|done].
    intros k b. rewrite lookup_foldr_delete. by case_decide.
Qed.

(** *** The handlers on the seeded database *)

Example create_book_new_book :
  (create_book seeded "2024-06-01T12:00:00"
     (Some {[ "title" := PStr "New Book"; "author_id" := PInt 1;
              "year" := PInt 2024 ]})).1 =
  Response 201
    (JDict [("success", JBool true);
            ("message", JVal (PStr "Book created successfully"));
            ("book",
             JDict [("id", JVal (PInt 9));
                    ("title", JVal (PStr "New Book"));
                    ("author_id", JVal (PInt 1));
                    ("author_name", JVal (PStr "Eric Matthes"));
                    ("year", JVal (PInt 2024));
                    ("isbn", JVal PNone);
                    ("created_at", JVal (PStr "2024-06-01T12:00:00"))])]).
Proof. vm_compute. reflexivity. Qed.

Example update_book_taken_isbn :
  update_book seeded 1 (Some {[ "isbn" := PStr "978-1491991732" ]})
    = (Raised IntegrityError, seeded).
Proof. vm_compute. reflexivity. Qed.

Example update_book_null_title_unknown_author :
  update_book seeded 1 (Some {[ "title" := PNone; "author_id" := PInt 77 ]})
    = (Raised IntegrityError, seeded).
Proof. vm_compute. reflexivity. Qed.

Example get_books_second_page :
  ∃ body,
    get_books seeded 2 3 "id" "asc" = Response 200 body ∧
    returned_ids body = [4; 5; 6] ∧
    field "pages" body = Some (JVal (PInt 3)) ∧
    field "has_next" body = Some (JBool true).
Proof. eexists. split; [vm_compute; reflexivity|]. by vm_compute. Qed.

Example delete_author_orwell :
  (all_rows (books (delete_author seeded 5).2)).*1 = [1; 2; 3; 4; 7; 8].
Proof. vm_compute. reflexivity. Qed.

End part4.

(** ** Unique columns, parts 3 and 4 *)

Section unique_columns.
Import Part4.

Lemma student_email_taken_true (ss : gmap Z Part3.Student.t) e k s :
  ss !! k = Some s → Part3.Student.email s = e →
  Part3.student_email_taken ss e = true.
Proof.
  intros Hk He. unfold Part3.student_email_taken.
  apply existsb_map_to_list. exists k, s. split; [done|].
  by apply bool_decide_eq_true.
Qed.

Lemma teacher_email_taken_true (ts : gmap Z Part3.Teacher.t) e k t :
  ts !! k = Some t → Part3.Teacher.email t = e →
  Part3.teacher_email_taken ts e = true.
Proof.
  intros Hk He. unfold Part3.teacher_email_taken.
  apply existsb_map_to_list. exists k, t. split; [done|].
  by apply bool_decide_eq_true.
Qed.

(** C3.  A create that repeats a value of a unique column is refused and
    changes nothing: a student or a teacher whose email some row of the same
    table already has (the view raises, [IntegrityError] from the UNIQUE
    index unless a form field is missing), and a book whose non-null isbn
    some book already has (HTTP 400, or [IntegrityError] when the isbn is
    one the handler's own check skips as empty). *)
Theorem duplicate_unique_field_rejected :
  (∀ (st : Part3.db) form e k s,
     form !! "email" = Some e →
     Part3.students st !! k = Some s → Part3.Student.email s = e →
     let r := Part3.add_student st "POST" form in
     Part3.failed r.1 ∧ r.2 = st) ∧
  (∀ (st : Part3.db) form e k t,
     form !! "email" = Some e →
     Part3.teachers st !! k = Some t → Part3.Teacher.email t = e →
     let r := Part3.add_teacher st "POST" form in
     Part3.failed r.1 ∧ r.2 = st) ∧
  (∀ (st : db) now (d : gmap string pyval) v k b,
     d !! "isbn" = Some v → v ≠ PNone →
     books st !! k = Some b → Book.isbn b = v →
     let r := create_book st now (Some d) in
     rejected r.1 ∧ r.2 = st).
Proof.
  split_and!.
  - intros st form e k s Hform Hk He. cbv zeta. unfold Part3.add_student.
    rewrite decide_True by done. rewrite Hform.
    destruct (form !! "name") as [name|]; [|done].
    destruct (form !! "course_id") as [course_id|]; [|done].
    unfold Part3.insert_student. cbn [Part3.Student.email].
    by rewrite (student_email_taken_true _ _ _ _ Hk He).
  - intros st form e k t Hform Hk He. cbv zeta. unfold Part3.add_teacher.
    rewrite decide_True by done. rewrite Hform.
    destruct (form !! "name") as [name|]; [|done].
    destruct (form !! "course_id") as [course_id|]; [|done].
    unfold Part3.insert_teacher. cbn [Part3.Teacher.email].
    by rewrite (teacher_email_taken_true _ _ _ _ Hk He).
  - intros st now d v k b Hd Hv Hk Hb. cbv zeta. unfold create_book.
    rewrite (no_data_Some _ _ _ Hd). cbn [default from_option Datatypes.id].
    rewrite (dict_get_Some _ _ _ Hd).
    destruct (truthy (dict_get d "title")) eqn:Htitle; [|by cbn].
    destruct (truthy (dict_get d "author_id")) eqn:Hauthor; [|by cbn].
    cbn [negb orb].
    destruct (author_get st _); [|by cbn].
    assert (is_Some (head (filter_by_isbn st v))) as Hhead
      by (apply head_filter_by_isbn; eauto).
    rewrite (bool_decide_eq_true_2 _ Hhead), andb_true_r.
    destruct (truthy v); [by cbn|].
    unfold insert_book. cbn [Book.title Book.author_id Book.isbn].
    rewrite !bool_decide_eq_false_2 by by apply truthy_not_None.
    assert (isbn_taken (books st) (next_id (books st)) v = true) as ->; [|done].
    apply isbn_taken_true. split; [done|]. exists k, b.
    split_and!; [done| |done]. intros ->. by rewrite next_id_fresh in Hk.
Qed.

Lemma duplicate_unique_field_rejected_witness :
  let student : gmap string string :=
    {[ "name" := "Alice Again"; "email" := "alice@student.com";
       "course_id" := "2" ]} in
  let teacher : gmap string string :=
    {[ "name" := "Dr. Michael Chen"; "email" := "mike@school.com";
       "course_id" := "1" ]} in
  let book : gmap string pyval :=
    {[ "title" := PStr "Nineteen Eighty-Four"; "author_id" := PInt 5;
       "isbn" := PStr "978-0451524935" ]} in
  (Part3.failed (Part3.add_student Part3.seeded "POST" student).1 ∧
   (Part3.add_student Part3.seeded "POST" student).2 = Part3.seeded) ∧
  (Part3.failed (Part3.add_teacher Part3.seeded "POST" teacher).1 ∧
   (Part3.add_teacher Part3.seeded "POST" teacher).2 = Part3.seeded) ∧
  (rejected (create_book seeded "2024-06-01T12:00:00" (Some book)).1 ∧
   (create_book seeded "2024-06-01T12:00:00" (Some book)).2 = seeded).
Proof.
  cbv zeta.
  destruct duplicate_unique_field_rejected as (Hstudent & Hteacher & Hbook).
  split_and!.
  - apply (Hstudent Part3.seeded _ "alice@student.com" 1
             (Part3.Student.mk "Alice Smith" "alice@student.com" "1"));
      reflexivity.
  - apply (Hstudent Part3.seeded _ "alice@student.com" 1
             (Part3.Student.mk "Alice Smith" "alice@student.com" "1"));
      reflexivity.
  - apply (Hteacher Part3.seeded _ "mike@school.com" 2
             (Part3.Teacher.mk "Prof. Mike Chen" "mike@school.com"
                "Full Stack Development" "2"));
      reflexivity.
  - apply (Hteacher Part3.seeded _ "mike@school.com" 2
             (Part3.Teacher.mk "Prof. Mike Chen" "mike@school.com"
                "Full Stack Development" "2"));
      reflexivity.
  - apply (Hbook seeded "2024-06-01T12:00:00" _ (PStr "978-0451524935") 5
             (Book.mk (PStr "1984") (PInt 5) (PInt 1949)
                (PStr "978-0451524935") (PStr "2024-01-01T00:00:00")));
      [reflexivity | discriminate | reflexivity | reflexivity].
  - apply (Hbook seeded "2024-06-01T12:00:00" _ (PStr "978-0451524935") 5
             (Book.mk (PStr "1984") (PInt 5) (PInt 1949)
                (PStr "978-0451524935") (PStr "2024-01-01T00:00:00")));
      [reflexivity | discriminate | reflexivity | reflexivity].
Defined.

End unique_columns.

(** * Further properties of the handlers *)

(** ** Part 4: writes *)

Section part4_writes.
Import Part4.
Implicit Types (st : db) (d : gmap string pyval) (v : pyval) (id k : Z).

Lemma isbn_taken_insert_same (bs : gmap Z Book.t) id b v :
  isbn_taken (<[id := b]> bs) id v = isbn_taken bs id v.
Proof.
  apply eq_true_iff_eq. rewrite !isbn_taken_true.
  split; intros [Hv (k & b' & Hk & Hne & Hb)]; (split; [done|]);
    exists k, b'; (split_and!; [|done..]).
  - by rewrite lookup_insert_ne in Hk.
  - by rewrite lookup_insert_ne.
Qed.

Lemma flush_book_staged (bs tx : gmap Z Book.t) id old mid new :
  flush_book bs id old mid = inr tx →
  Book.author_id mid = Book.author_id old →
  Book.isbn mid = Book.isbn old →
  Book.title new = Book.title mid →
  flush_book tx id mid new = flush_book bs id old new.
Proof.
  intros Hflush Hauthor Hisbn Htitle.
  apply flush_book_inr in Hflush as Htx. subst tx.
  revert Hflush. unfold flush_book.
  rewrite isbn_taken_insert_same, insert_insert_eq, Hauthor, Hisbn, Htitle.
  case_bool_decide as Hmid; [done|intros _].
  rewrite (bool_decide_eq_false_2 (_ ≠ _ ∧ _)) by tauto.
  done.
Qed.

(** With the author it names (if any) on file, a PUT on a book is one write
    of the patched row, and answers 200 unless that write is refused. *)
Lemma update_book_eq st id (old : Book.t) d :
  books st !! id = Some old → d ≠ ∅ →
  (∀ w, d !! "author_id" = Some w → is_Some (author_get st w)) →
  update_book st id (Some d) =
    match flush_book (books st) id old (patch_book d old) with
    | inl e => (Raised e, st)
    | inr bs =>
        (Response 200
           (JDict [("success", JBool true);
                   ("message", JVal (PStr "Book updated successfully"));
                   ("book", book_to_dict (mkdb (authors st) bs) id
                                         (patch_book d old))]),
         mkdb (authors st) bs)
    end.
Proof.
  intros Hold Hd Hauthor. unfold update_book.
  rewrite Hold, (no_data_nonempty _ Hd).
  cbn [default from_option Datatypes.id].
  destruct (d !! "author_id") as [w|] eqn:Hw.
  - destruct (Hauthor w eq_refl) as [a Ha]. rewrite Ha.
    destruct (flush_book (books st) id old _) as [e|tx] eqn:Hflush.
    + apply flush_book_inl in Hflush as Heq. subst e.
      destruct (d !! "title") as [t|] eqn:Ht.
      * apply flush_book_title_only in Hflush as Htitle. subst t.
        revert Hflush. unfold flush_book, patch_book. cbn. rewrite Ht. cbn.
        case_bool_decide as Hnull; [done|].
        rewrite (bool_decide_eq_false_2 (Book.author_id old ≠ _ ∧ _)) by tauto.
        rewrite (bool_decide_eq_false_2 (Book.isbn old ≠ _)) by tauto.
        done.
      * by rewrite flush_book_same in Hflush.
    + erewrite (flush_book_staged _ _ _ _ _ _ Hflush).
      * lazymatch goal with
        | |- ?lhs = _ =>
            match lhs with
            | context [flush_book _ _ _ ?b] =>
                assert (b = patch_book d old) as ->; [|done]
            end
        end.
        unfold patch_book. rewrite Hw.
        by destruct (d !! "isbn"), (d !! "year"), (d !! "title"), old.
      * by destruct (d !! "title").
      * by destruct (d !! "title").
      * by destruct (d !! "isbn"), (d !! "year"), (d !! "title").
  - lazymatch goal with
    | |- ?lhs = _ =>
        match lhs with
        | context [flush_book _ _ _ ?b] =>
            assert (b = patch_book d old) as ->; [|done]
        end
    end.
    unfold patch_book. rewrite Hw.
    by destruct (d !! "isbn"), (d !! "year"), (d !! "title"), old.
Qed.

Lemma update_book_200 st id data body st' :
  update_book st id data = (Response 200 body, st') →
  ∃ old d,
    books st !! id = Some old ∧ data = Some d ∧ d ≠ ∅ ∧
    (∀ w, d !! "author_id" = Some w → is_Some (author_get st w)) ∧
    flush_book (books st) id old (patch_book d old) = inr (books st') ∧
    authors st' = authors st ∧
    body = JDict [("success", JBool true);
                  ("message", JVal (PStr "Book updated successfully"));
                  ("book", book_to_dict st' id (patch_book d old))].
Proof.
  intros Hput.
  destruct (books st !! id) as [old|] eqn:Hold;
    [|by unfold update_book in Hput; rewrite Hold in Hput].
  destruct data as [d|];
    [|by unfold update_book in Hput; rewrite Hold in Hput].
  destruct (decide (d = ∅)) as [->|Hd];
    [by unfold update_book in Hput; rewrite Hold in Hput|].
  assert (∀ w, d !! "author_id" = Some w → is_Some (author_get st w))
    as Hauthor.
  { intros w Hw. destruct (author_get st w) as [a|] eqn:Hget; [by eauto|].
    exfalso. revert Hput. unfold update_book.
    rewrite Hold, (no_data_nonempty _ Hd).
    cbn [default from_option Datatypes.id]. rewrite Hw.
    destruct (flush_book _ _ _ _); [done|]. by rewrite Hget. }
  rewrite (update_book_eq _ _ _ _ Hold Hd Hauthor) in Hput.
  destruct (flush_book _ _ _ _) as [e|bs] eqn:Hflush; [done|].
  injection Hput as <- <-. by exists old, d.
Qed.

(** A PUT on a book whose body holds values of the kind the columns take
    as sent, and that is answered 200, has written every column the body
    names with the body's value and left the rest of the store alone; the
    [book] it returns is the row as stored (its id, and title, author_id,
    year and isbn from the body where the body names them, from the old row
    where it does not), the same representation a GET on that id gives
    next. *)
Theorem update_book_then_get st id d body st' :
  book_fields_typed d →
  update_book st id (Some d) = (Response 200 body, st') →
  ∃ old book,
    books st !! id = Some old ∧
    books st' !! id = Some (patch_book d old) ∧
    (∀ k, k ≠ id → books st' !! k = books st !! k) ∧
    authors st' = authors st ∧
    field "book" body = Some book ∧
    get_book st' id =
      Response 200 (JDict [("success", JBool true); ("book", book)]) ∧
    dict_value "id" book = Some (PInt id) ∧
    dict_value "title" book = Some (default (Book.title old) (d !! "title")) ∧
    dict_value "author_id" book
      = Some (default (Book.author_id old) (d !! "author_id")) ∧
    dict_value "year" book = Some (default (Book.year old) (d !! "year")) ∧
    dict_value "isbn" book = Some (default (Book.isbn old) (d !! "isbn")) ∧
    dict_value "created_at" book = Some (Book.created_at old).
Proof.
  intros _ Hput.
  apply update_book_200 in Hput
    as (old & d' & Hold & [= <-] & Hd & _ & Hflush & Hau & ->).
  apply flush_book_inr in Hflush as Hbs.
  exists old, (book_to_dict st' id (patch_book d old)).
  split_and!; try done.
  - rewrite Hbs. apply lookup_insert_eq.
  - intros k Hk. rewrite Hbs. by apply lookup_insert_ne.
  - unfold get_book. rewrite Hbs, lookup_insert_eq. done.
Qed.

Lemma update_book_then_get_witness :
  ∃ body st',
    update_book seeded 3 (Some {[ "year" := PInt 2009; "isbn" := PNone ]})
      = (Response 200 body, st') ∧
    ∃ row, books st' !! 3 = Some row ∧
           Book.year row = PInt 2009 ∧ Book.isbn row = PNone ∧
           Book.title row = PStr "Clean Code".
Proof.
  assert (∃ body st',
            update_book seeded 3
              (Some {[ "year" := PInt 2009; "isbn" := PNone ]})
              = (Response 200 body, st')) as (body & st' & Hput)
    by (eexists _, _; vm_compute; reflexivity).
  exists body, st'. split; [exact Hput|].
  assert (book_fields_typed {[ "year" := PInt 2009; "isbn" := PNone ]})
    as Htyped by (repeat split; try exact I; cbn; lia).
  destruct (update_book_then_get _ _ _ _ _ Htyped Hput)
    as (old & book & Hold & Hrow & _).
  vm_compute in Hold. injection Hold as <-.
  eexists. split; [exact Hrow|]. by vm_compute.
Defined.

Lemma patch_book_idemp d (b : Book.t) :
  patch_book d (patch_book d b) = patch_book d b.
Proof.
  unfold patch_book. cbn.
  by destruct (d !! "title"), (d !! "author_id"), (d !! "year"), (d !! "isbn").
Qed.

(** PUT on a book is idempotent: sending again a body that was answered 200
    is answered the same way and leaves the store as the first one made
    it. *)
Theorem update_book_idempotent st id data body st' :
  update_book st id data = (Response 200 body, st') →
  update_book st' id data = (Response 200 body, st').
Proof.
  intros Hput.
  apply update_book_200 in Hput
    as (old & d & Hold & -> & Hd & Hauthor & Hflush & Hau & ->).
  apply flush_book_inr in Hflush as Hbs.
  assert (books st' !! id = Some (patch_book d old)) as Hrow
    by (rewrite Hbs; apply lookup_insert_eq).
  rewrite (update_book_eq _ _ _ _ Hrow Hd).
  - rewrite patch_book_idemp, flush_book_same.
    assert (<[id := patch_book d old]> (books st') = books st') as ->
      by (by apply insert_id).
    rewrite Hau. destruct st' as [au bs]. cbn in *. by subst au.
  - intros w Hw. destruct (Hauthor w Hw) as [a Ha].
    exists a. destruct w; try done. cbn in *. by rewrite Hau.
Qed.

Lemma update_book_idempotent_witness :
  ∃ body st',
    update_book seeded 3 (Some {[ "title" := PStr "Clean Code, 2nd ed." ]})
      = (Response 200 body, st') ∧
    update_book st' 3 (Some {[ "title" := PStr "Clean Code, 2nd ed." ]})
      = (Response 200 body, st').
Proof.
  assert (∃ body st',
            update_book seeded 3
              (Some {[ "title" := PStr "Clean Code, 2nd ed." ]})
              = (Response 200 body, st')) as (body & st' & Hput)
    by (eexists _, _; vm_compute; reflexivity).
  exists body, st'. split; [exact Hput|].
  exact (update_book_idempotent _ _ _ _ _ Hput).
Defined.

(** *** Invariants of the store *)

Lemma update_book_cases st id data :
  (update_book st id data).2 = st ∨
  ∃ body st', update_book st id data = (Response 200 body, st').
Proof.
  unfold update_book.
  destruct (books st !! id); [|by left].
  destruct (no_data data); [by left|].
  destruct (default ∅ data !! "author_id").
  - destruct (flush_book (books st) _ _ _); [by left|].
    destruct (author_get st _); [|by left].
    destruct (flush_book _ _ _ _); [by left|]. right. by eauto.
  - destruct (flush_book _ _ _ _); [by left|]. right. by eauto.
Qed.

Lemma author_get_ext st st' v :
  authors st' = authors st → author_get st' v = author_get st v.
Proof. intros Hau. destruct v; cbn; by rewrite ?Hau. Qed.

Lemma author_get_mono st st' v :
  (∀ z a, authors st !! z = Some a → is_Some (authors st' !! z)) →
  is_Some (author_get st v) → is_Some (author_get st' v).
Proof. intros Hsub [a Ha]. destruct v; try done. cbn in *. eauto. Qed.

Lemma insert_book_inr (bs bs' : gmap Z Book.t) b id :
  insert_book bs b = inr (id, bs') →
  id = next_id bs ∧ bs' = <[id := b]> bs ∧
  Book.title b ≠ PNone ∧ Book.author_id b ≠ PNone.
Proof.
  unfold insert_book.
  case_bool_decide as Ht; [done|]. case_bool_decide as Ha; [done|].
  destruct (isbn_taken _ _ _); [done|]. by intros [= <- <-].
Qed.

Lemma flush_book_required (bs bs' : gmap Z Book.t) id old new :
  flush_book bs id old new = inr bs' →
  Book.title old ≠ PNone → Book.author_id old ≠ PNone →
  Book.title new ≠ PNone ∧ Book.author_id new ≠ PNone.
Proof.
  unfold flush_book.
  case_bool_decide as Ht; [done|]. case_bool_decide as Ha; [done|].
  intros _ Hto Hao. split; intros Hnull.
  - apply Ht. split; [congruence|done].
  - apply Ha. split; [congruence|done].
Qed.

(** No write leaves a book without its author: if every book's [author_id]
    names an Author row before a POST, PUT or DELETE on either resource, the
    same holds after it, whatever the request was. *)
Theorem books_have_authors_preserved st :
  books_have_authors st →
  (∀ now data, books_have_authors (create_book st now data).2) ∧
  (∀ id data, books_have_authors (update_book st id data).2) ∧
  (∀ id, books_have_authors (delete_book st id).2) ∧
  (∀ data, books_have_authors (create_author st data).2) ∧
  (∀ id data, books_have_authors (update_author st id data).2) ∧
  (∀ id, books_have_authors (delete_author st id).2).
Proof.
  intros Hinv. split_and!.
  - intros now data. unfold create_book.
    destruct (no_data data); [done|].
    destruct (negb _ || negb _); [done|].
    destruct (author_get st _) as [a|] eqn:Ha; [|done].
    destruct (truthy _ && _); [done|].
    destruct (insert_book _ _) as [e|[id bs]] eqn:Hinsert; [done|].
    apply insert_book_inr in Hinsert as (-> & -> & _).
    intros k b. cbn [snd books].
    destruct (decide (k = next_id (books st))) as [->|Hne].
    + rewrite lookup_insert_eq. intros [= <-]. cbn [Book.author_id].
      rewrite (author_get_ext st) by done. eauto.
    + rewrite lookup_insert_ne by done. intros Hk.
      rewrite (author_get_ext st) by done. eauto.
  - intros id data.
    destruct (update_book_cases st id data) as [->|(body & st' & Hput)];
      [done|].
    rewrite Hput. cbn [snd].
    apply update_book_200 in Hput
      as (old & d & Hold & -> & Hd & Hauthor & Hflush & Hau & _).
    apply flush_book_inr in Hflush as Hbs.
    intros k b. rewrite Hbs, (author_get_ext st) by done.
    destruct (decide (k = id)) as [->|Hne].
    + rewrite lookup_insert_eq. intros [= <-]. unfold patch_book. cbn.
      destruct (d !! "author_id") as [w|] eqn:Hw; cbn; eauto.
    + rewrite lookup_insert_ne by done. eauto.
  - intros id. unfold delete_book. case_match; [|done].
    intros k b. cbn [snd books]. rewrite lookup_delete_Some.
    intros [_ Hk]. rewrite (author_get_ext st) by done. eauto.
  - intros data. unfold create_author.
    destruct (no_data data); [done|]. destruct (negb _); [done|].
    unfold insert_author. case_bool_decide; [done|].
    intros k b Hk. cbn [snd books] in *.
    eapply author_get_mono; [|by eapply Hinv]. cbn [authors].
    intros z a Hz. destruct (decide (next_id (authors st) = z)) as [Heq|Hne].
    + by rewrite <- Heq, next_id_fresh in Hz.
    + rewrite lookup_insert_ne by done. eauto.
  - intros id data. unfold update_author.
    destruct (authors st !! id) as [old|] eqn:Hold; [|done].
    destruct (no_data data); [done|].
    destruct (flush_author _ _ _ _) as [e|au] eqn:Hflush; [done|].
    apply flush_author_inr in Hflush as ->.
    intros k b Hk. cbn [snd books] in *.
    eapply author_get_mono; [|by eapply Hinv]. cbn [authors].
    intros z a Hz. destruct (decide (id = z)) as [->|Hne].
    + rewrite lookup_insert_eq. eauto.
    + rewrite lookup_insert_ne by done. eauto.
  - intros id. unfold delete_author.
    destruct (authors st !! id) as [a|] eqn:Ha; [|done].
    intros k b. cbn [snd books]. rewrite lookup_foldr_delete.
    case_decide as Hin; [done|]. intros Hk.
    destruct (Hinv k b Hk) as [a' Ha'].
    destruct (Book.author_id b) as [|z|s] eqn:Hb; try done.
    cbn in *. exists a'. rewrite lookup_delete_ne; [done|].
    intros ->. apply Hin. apply list_elem_of_fmap. exists (k, b).
    split; [done|]. by apply elem_of_author_books.
Qed.

Lemma books_have_authors_preserved_witness :
  books_have_authors (delete_author seeded 5).2 ∧
  books_have_authors
    (update_book seeded 1 (Some {[ "author_id" := PInt 2 ]})).2.
Proof.
  destruct (books_have_authors_preserved seeded seeded_books_have_authors)
    as (_ & Hput & _ & _ & _ & Hdel).
  split; [apply Hdel | apply Hput].
Defined.

Lemma isbn_unique_preserved_witness :
  isbn_unique
    (books (update_book seeded 1 (Some {[ "isbn" := PStr "978-0" ]})).2) ∧
  isbn_unique
    (books (create_book seeded "2024-06-01T12:00:00"
              (Some {[ "title" := PStr "New Book"; "author_id" := PInt 1 ]})).2).
Proof.
  destruct (isbn_unique_preserved seeded seeded_isbn_unique)
    as (Hpost & Hput & _).
  split; [apply Hput | apply Hpost].
Defined.

(** The NOT NULL columns stay filled: if no book lacks a title or an
    [author_id] and no author lacks a name before a request, none does after
    it, whatever the request was. *)
Theorem required_columns_preserved st :
  required_columns st →
  (∀ now data, required_columns (create_book st now data).2) ∧
  (∀ id data, required_columns (update_book st id data).2) ∧
  (∀ id, required_columns (delete_book st id).2) ∧
  (∀ data, required_columns (create_author st data).2) ∧
  (∀ id data, required_columns (update_author st id data).2) ∧
  (∀ id, required_columns (delete_author st id).2).
Proof.
  intros [Hbooks Hauthors]. split_and!.
  - intros now data. unfold create_book.
    destruct (no_data data); [done|].
    destruct (negb _ || negb _); [done|].
    destruct (author_get st _); [|done].
    destruct (truthy _ && _); [done|].
    destruct (insert_book _ _) as [e|[id bs]] eqn:Hinsert; [done|].
    apply insert_book_inr in Hinsert as (-> & -> & Ht & Ha).
    split; [|done]. intros k b. cbn [snd books].
    destruct (decide (k = next_id (books st))) as [->|Hne].
    + rewrite lookup_insert_eq. by intros [= <-].
    + rewrite lookup_insert_ne by done. eauto.
  - intros id data.
    destruct (update_book_cases st id data) as [->|(body & st' & Hput)];
      [done|].
    rewrite Hput. cbn [snd].
    apply update_book_200 in Hput
      as (old & d & Hold & -> & Hd & _ & Hflush & Hau & _).
    apply flush_book_inr in Hflush as Hbs.
    destruct (Hbooks id old Hold) as [Hto Hao].
    split; [|by rewrite Hau]. intros k b. rewrite Hbs.
    destruct (decide (k = id)) as [->|Hne].
    + rewrite lookup_insert_eq. intros [= <-].
      by eapply flush_book_required.
    + rewrite lookup_insert_ne by done. eauto.
  - intros id. unfold delete_book. case_match; [|done].
    split; [|done]. intros k b. cbn [snd books].
    rewrite lookup_delete_Some. intros [_ Hk]. eauto.
  - intros data. unfold create_author.
    destruct (no_data data); [done|]. destruct (negb _); [done|].
    unfold insert_author. case_bool_decide as Hname; [done|].
    split; [done|]. intros k a. cbn [snd authors].
    destruct (decide (k = next_id (authors st))) as [->|Hne].
    + rewrite lookup_insert_eq. by intros [= <-].
    + rewrite lookup_insert_ne by done. eauto.
  - intros id data. unfold update_author.
    destruct (authors st !! id) as [old|] eqn:Hold; [|done].
    destruct (no_data data); [done|].
    destruct (flush_author _ _ _ _) as [e|au] eqn:Hflush; [done|].
    split; [done|]. intros k a. cbn [snd authors].
    revert Hflush. unfold flush_author.
    case_bool_decide as Hname; [done|]. intros [= <-].
    destruct (decide (k = id)) as [->|Hne].
    + rewrite lookup_insert_eq. intros [= <-] Hnull. apply Hname.
      split; [|done]. specialize (Hauthors id old Hold). congruence.
    + rewrite lookup_insert_ne by done. eauto.
  - intros id. unfold delete_author.
    destruct (authors st !! id); [|done]. split.
    + intros k b. cbn [snd books]. rewrite lookup_foldr_delete.
      case_decide; [done|]. eauto.
    + intros k a. cbn [snd authors]. rewrite lookup_delete_Some.
      intros [_ Hk]. eauto.
Qed.

Lemma seeded_required_columns : required_columns seeded.
Proof.
  assert (map_Forall (λ _ b, Book.title b ≠ PNone ∧ Book.author_id b ≠ PNone)
                     (books seeded)) as Hb
    by (apply (bool_decide_unpack _); vm_compute; exact I).
  assert (map_Forall (λ _ a, Author.name a ≠ PNone) (authors seeded)) as Ha
    by (apply (bool_decide_unpack _); vm_compute; exact I).
  split; [exact Hb | exact Ha].
Qed.

Lemma required_columns_preserved_witness :
  required_columns
    (update_book seeded 1 (Some {[ "title" := PNone ]})).2 ∧
  required_columns
    (update_author seeded 2 (Some {[ "name" := PStr "M. Grinberg" ]})).2.
Proof.
  destruct (required_columns_preserved seeded seeded_required_columns)
    as (_ & Hbook & _ & _ & Hauthor & _).
  split; [apply Hbook | apply Hauthor].
Defined.

(** *** Deleting *)

(** DELETE /api/books/<id>: on an id no book has (an integer the lookup
    can bind), 404 and nothing changes; on a book, 200, that row alone is
    gone (one book fewer, every other book and every author as before), and
    from then on a GET or a second DELETE on the id is answered 404. *)
Theorem delete_book_removes st id :
  (sqlite_int id → books st !! id = None →
   delete_book st id = (Response 404 (error_body "Book not found"), st)) ∧
  (∀ b, books st !! id = Some b →
     ∃ st',
       delete_book st id =
         (Response 200
            (JDict [("success", JBool true);
                    ("message", JVal (PStr "Book deleted successfully"))]),
          st') ∧
       books st' !! id = None ∧
       (∀ k, k ≠ id → books st' !! k = books st !! k) ∧
       authors st' = authors st ∧
       S (size (books st')) = size (books st) ∧
       get_book st' id = Response 404 (error_body "Book not found") ∧
       delete_book st' id
         = (Response 404 (error_body "Book not found"), st')).
Proof.
  split.
  - intros _ Hid. unfold delete_book. by rewrite Hid.
  - intros b Hid. unfold delete_book at 1. rewrite Hid.
    eexists. split; [reflexivity|]. cbn [books authors].
    split; [apply lookup_delete_eq|].
    split; [by intros; apply lookup_delete_ne|].
    split; [done|]. split.
    + rewrite map_size_delete, Hid.
      assert (size (books st) ≠ 0%nat); [|lia].
      apply map_size_non_empty_iff. intros Hempty.
      by rewrite Hempty, lookup_empty in Hid.
    + unfold get_book, delete_book. cbn [books].
      by rewrite lookup_delete_eq.
Qed.

Lemma delete_book_removes_witness :
  delete_book seeded 60 = (Response 404 (error_body "Book not found"), seeded) ∧
  ∃ st',
    (delete_book seeded 6).2 = st' ∧
    books st' !! 6 = None ∧ size (books st') = 7%nat ∧
    get_book st' 6 = Response 404 (error_body "Book not found").
Proof.
  assert (sqlite_int 60) as Hid by (unfold sqlite_int; lia).
  split; [exact (proj1 (delete_book_removes seeded 60) Hid eq_refl)|].
  destruct (proj2 (delete_book_removes seeded 6)
              (Book.mk (PStr "Animal Farm") (PInt 5) (PInt 1945)
                 (PStr "978-0451526342") (PStr "2024-01-01T00:00:00"))
              eq_refl)
    as (st' & Hdel & Hgone & _ & _ & Hsize & Hget & _).
  exists st'. rewrite Hdel. split; [done|]. split; [exact Hgone|].
  split; [|exact Hget].
  assert (size (books seeded) = 8%nat) as Hn by reflexivity. lia.
Defined.

Lemma author_books_fresh st id :
  books_have_authors st → authors st !! id = None →
  ∀ au, author_books (mkdb au (books st)) id = [].
Proof.
  intros Hinv Hid au.
  destruct (author_books _ id) as [|[k b] l] eqn:Hl; [done|exfalso].
  assert ((k, b) ∈ author_books (mkdb au (books st)) id) as Hin
    by (rewrite Hl; left).
  apply elem_of_author_books in Hin as [Hk Hb]. cbn in Hk.
  destruct (Hinv k b Hk) as [a Ha]. rewrite Hb in Ha. cbn in Ha. congruence.
Qed.

(** Creating and then deleting gives the store back.  A book that POST
    /api/books created (201) is removed again by DELETE on the id the answer
    carries, and the store is exactly what it was before the POST; the same
    holds for an author, as long as no book was pointing at an author that
    does not exist. *)
Theorem create_then_delete st now data body st' :
  (create_book st now data = (Response 201 body, st') →
   ∃ id bk,
     field "book" body = Some bk ∧ dict_id bk = Some id ∧
     books st !! id = None ∧
     delete_book st' id =
       (Response 200
          (JDict [("success", JBool true);
                  ("message", JVal (PStr "Book deleted successfully"))]),
        st)) ∧
  (books_have_authors st →
   create_author st data = (Response 201 body, st') →
   ∃ id,
     field "author" body ≫= dict_id = Some id ∧
     authors st !! id = None ∧
     delete_author st' id =
       (Response 200
          (JDict [("success", JBool true);
                  ("message",
                   JVal (PStr "Author and associated books deleted successfully"))]),
        st)).
Proof.
  split.
  - unfold create_book.
    destruct (no_data data); [done|].
    destruct (negb _ || negb _); [done|].
    destruct (author_get st _); [|done].
    destruct (truthy _ && _); [done|].
    destruct (insert_book _ _) as [e|[id bs]] eqn:Hinsert; [done|].
    apply insert_book_inr in Hinsert as (-> & -> & _).
    intros [= <- <-]. eexists _, _.
    split; [reflexivity|]. split; [reflexivity|].
    split; [apply next_id_fresh|].
    unfold delete_book. cbn [books authors]. rewrite lookup_insert_eq.
    rewrite delete_insert_id by apply next_id_fresh. by destruct st.
  - intros Hinv. unfold create_author.
    destruct (no_data data); [done|]. destruct (negb _); [done|].
    unfold insert_author. case_bool_decide; [done|].
    intros [= <- <-]. eexists.
    split; [reflexivity|]. split; [apply next_id_fresh|].
    unfold delete_author. cbn [books authors]. rewrite lookup_insert_eq.
    rewrite (author_books_fresh st) by (done || apply next_id_fresh).
    cbn [foldr].
    rewrite delete_insert_id by apply next_id_fresh. by destruct st.
Qed.

Lemma create_then_delete_witness :
  (∃ body st',
     create_book seeded "2024-06-01T12:00:00"
       (Some {[ "title" := PStr "New Book"; "author_id" := PInt 1 ]})
       = (Response 201 body, st') ∧
     ∃ id bk, field "book" body = Some bk ∧ dict_id bk = Some id ∧
              (delete_book st' id).2 = seeded) ∧
  ∃ body st',
    create_author seeded (Some {[ "name" := PStr "Ursula K. Le Guin" ]})
      = (Response 201 body, st') ∧
    ∃ id, field "author" body ≫= dict_id = Some id ∧
          (delete_author st' id).2 = seeded.
Proof.
  split.
  { assert (∃ body st',
              create_book seeded "2024-06-01T12:00:00"
                (Some {[ "title" := PStr "New Book"; "author_id" := PInt 1 ]})
                = (Response 201 body, st')) as (body & st' & Hpost)
      by (eexists _, _; vm_compute; reflexivity).
    exists body, st'. split; [exact Hpost|].
    destruct (proj1 (create_then_delete _ _ _ _ _) Hpost)
      as (id & bk & Hbk & Hid & _ & Hdel).
    exists id, bk. split; [exact Hbk|]. split; [exact Hid|]. by rewrite Hdel. }
  assert (∃ body st',
            create_author seeded
              (Some {[ "name" := PStr "Ursula K. Le Guin" ]})
              = (Response 201 body, st')) as (body & st' & Hpost)
    by (eexists _, _; vm_compute; reflexivity).
  exists body, st'. split; [exact Hpost|].
  destruct (proj2 (create_then_delete _ "2024-06-01T12:00:00" _ _ _)
              seeded_books_have_authors Hpost) as (id & Hid & _ & Hdel).
  exists id. split; [exact Hid|]. by rewrite Hdel.
Defined.

Lemma map_to_list_foldr_delete st id :
  map_to_list (foldr (λ kb m, delete kb.1 m) (books st) (author_books st id))
  ≡ₚ filter (λ kb, ¬ Book.author_id kb.2 = PInt id) (map_to_list (books st)).
Proof.
  apply NoDup_Permutation.
  - apply NoDup_map_to_list.
  - apply NoDup_filter, NoDup_map_to_list.
  - intros [k b]. rewrite list_elem_of_filter, !elem_of_map_to_list.
    rewrite lookup_foldr_delete. cbn. case_decide as Hin; split.
    + done.
    + intros [Hb Hk]. destruct Hb.
      apply list_elem_of_fmap in Hin as ([k' b'] & -> & Hin).
      apply elem_of_author_books in Hin as [Hk' Hb']. cbn in Hk.
      congruence.
    + intros Hk. split; [|done]. intros Hb. apply Hin.
      apply list_elem_of_fmap. exists (k, b). split; [done|].
      by apply elem_of_author_books.
    + tauto.
Qed.

(** DELETE /api/authors/<id> takes away exactly the books the author's
    [books_count] counted: the number of books left plus that count is the
    number of books there were. *)
Theorem delete_author_book_count st id (a : Author.t) :
  authors st !! id = Some a →
  (size (books (delete_author st id).2) + length (author_books st id))%nat
    = size (books st) ∧
  assoc "books_count" (author_to_dict st id a)
    = Some (JVal (PInt (Z.of_nat (length (author_books st id))))).
Proof.
  intros Ha. split; [|done]. unfold delete_author. rewrite Ha.
  cbn [snd books].
  rewrite <- !length_map_to_list, map_to_list_foldr_delete.
  unfold author_books, all_rows. rewrite merge_sort_Permutation.
  rewrite <- (filter_app_complement (λ kb : Z * Book.t,
                                       Book.author_id kb.2 = PInt id)
                                    (map_to_list (books st))) at 3.
  rewrite length_app. lia.
Qed.

Lemma delete_author_book_count_witness :
  (size (books (delete_author seeded 5).2) + 2)%nat = 8%nat.
Proof.
  pose proof (proj1 (delete_author_book_count seeded 5
                (Author.mk (PStr "George Orwell")
                   (PStr "English novelist and essayist") (PStr "London"))
                eq_refl)) as Hcount.
  assert (length (author_books seeded 5) = 2%nat) as Hn by reflexivity.
  assert (size (books seeded) = 8%nat) as Hs by reflexivity.
  lia.
Defined.

End part4_writes.

(** ** Part 4: reads *)

Section part4_reads.
Import Part4.
Implicit Types (st : db) (id k : Z).

Lemma sum_list_with_add {A} (f g : A → nat) (l : list A) :
  sum_list_with (λ x, f x + g x)%nat l
    = (sum_list_with f l + sum_list_with g l)%nat.
Proof. induction l as [|x l IH]; cbn; lia. Qed.

Lemma sum_list_with_ext {A} (f g : A → nat) (l : list A) :
  (∀ x, x ∈ l → f x = g x) → sum_list_with f l = sum_list_with g l.
Proof.
  induction l as [|x l IH]; [done|]. intros Hfg. cbn.
  rewrite (Hfg x), IH; [done| |left]. intros y Hy. apply Hfg. by right.
Qed.

Lemma sum_list_with_zero {A} (f : A → nat) (l : list A) :
  (∀ x, x ∈ l → f x = 0%nat) → sum_list_with f l = 0%nat.
Proof.
  induction l as [|x l IH]; [done|]. intros Hf. cbn.
  rewrite (Hf x), IH; [done| |left]. intros y Hy. apply Hf. by right.
Qed.

Lemma one_author_counts (A : list (Z * Author.t)) (z : Z) :
  NoDup A.*1 → z ∈ A.*1 →
  sum_list_with (λ ka, if decide (PInt z = PInt ka.1) then 1 else 0)%nat A
    = 1%nat.
Proof.
  induction A as [|[k a] A IH]; cbn; intros Hnd Hz.
  - by apply elem_of_nil in Hz.
  - apply NoDup_cons in Hnd as [Hk Hnd].
    destruct (decide (PInt z = PInt k)) as [[= ->]|Hne].
    + rewrite sum_list_with_zero; [done|]. intros [k' a'] Hin.
      rewrite decide_False; [done|]. intros [= ->]. apply Hk.
      apply list_elem_of_fmap. by exists (k', a').
    + apply elem_of_cons in Hz as [->|Hz]; [done|]. by rewrite IH.
Qed.

Lemma books_counts_add_up (A : list (Z * Author.t)) (l : list (Z * Book.t)) :
  NoDup A.*1 →
  (∀ r, r ∈ l → ∃ z, z ∈ A.*1 ∧ Book.author_id r.2 = PInt z) →
  sum_list_with
    (λ ka, length (filter (λ r, Book.author_id r.2 = PInt ka.1) l)) A
    = length l.
Proof.
  intros Hnd. induction l as [|r l IH]; intros Hl.
  - cbn. apply sum_list_with_zero. done.
  - destruct (Hl r ltac:(left)) as (z & Hz & Hr).
    transitivity
      (sum_list_with
         (λ ka, (if decide (PInt z = PInt ka.1) then 1 else 0) +
                length (filter (λ r, Book.author_id r.2 = PInt ka.1) l))%nat
         A).
    + apply sum_list_with_ext. intros [k a] _.
      rewrite filter_cons. cbn. rewrite Hr.
      by destruct (decide (PInt z = PInt k)).
    + rewrite sum_list_with_add, one_author_counts by done.
      rewrite IH; [done|]. intros r' Hr'. apply Hl. by right.
Qed.

Lemma listed_authors_books_count st (rows : list (Z * Author.t)) :
  omap (dict_value "books_count")
       (map (λ ka, JDict (author_to_dict st ka.1 ka.2)) rows)
  = (λ ka, PInt (Z.of_nat (length (author_books st ka.1)))) <$> rows.
Proof. induction rows as [|[k a] rows IH]; [done|]. cbn. by f_equal. Qed.

Lemma listed_authors_id st (rows : list (Z * Author.t)) :
  omap (dict_value "id")
       (map (λ ka, JDict (author_to_dict st ka.1 ka.2)) rows)
  = PInt <$> rows.*1.
Proof. induction rows as [|[k a] rows IH]; [done|]. cbn. by f_equal. Qed.

(** GET /api/authors lists every author once, in id order, and [count] is
    their number; each entry's [books_count] is the number of books whose
    [author_id] is that author, so when every book has an author on file
    the [books_count] values add up to the number of books. *)
Theorem get_authors_counts st :
  ∃ body,
    get_authors st = Response 200 body ∧
    field "count" body = Some (JVal (PInt (Z.of_nat (size (authors st))))) ∧
    listed "authors" "id" (get_authors st)
      = PInt <$> (all_rows (authors st)).*1 ∧
    (all_rows (authors st)).*1 ≡ₚ (map_to_list (authors st)).*1 ∧
    listed "authors" "books_count" (get_authors st)
      = (λ ka, PInt (Z.of_nat (length (author_books st ka.1))))
          <$> all_rows (authors st) ∧
    (books_have_authors st →
     sum_list_with (λ ka, length (author_books st ka.1))
                   (all_rows (authors st)) = size (books st)).
Proof.
  unfold get_authors. eexists. split; [reflexivity|].
  split; [by cbn; rewrite length_all_rows|].
  split; [apply listed_authors_id|].
  split; [by unfold all_rows; rewrite merge_sort_Permutation|].
  split; [apply listed_authors_books_count|].
  intros Hinv. unfold author_books.
  rewrite books_counts_add_up; [apply length_all_rows|apply NoDup_all_rows|].
  intros [k b] Hin. apply elem_of_all_rows in Hin.
  destruct (Hinv k b Hin) as [a Ha].
  destruct (Book.author_id b) as [|z|] eqn:Hb; try done. cbn in Ha.
  exists z. split; [|done].
  apply list_elem_of_fmap. exists (z, a). split; [done|].
  by apply elem_of_all_rows.
Qed.

Lemma get_authors_counts_witness :
  sum_list_with (λ ka, length (author_books seeded ka.1))
                (all_rows (authors seeded)) = size (books seeded).
Proof.
  destruct (get_authors_counts seeded) as (body & _ & _ & _ & _ & _ & Hsum).
  exact (Hsum seeded_books_have_authors).
Defined.

(** *** Pages *)

Lemma chunks_concat {A} (l : list A) (n k : nat) :
  concat (map (λ i, take n (drop (i * n) l)) (seq 0 k)) = take (k * n) l.
Proof.
  induction k as [|k IH]; [done|].
  rewrite seq_S, map_app, concat_app, IH. cbn [map concat].
  rewrite app_nil_r, take_take_drop. f_equal. lia.
Qed.

Lemma listed_ids_page st (rows : list (Z * Book.t)) page per_page :
  1 ≤ page → 1 ≤ per_page →
  omap dict_id (map (λ kb, book_to_dict st kb.1 kb.2)
                    (items (paginate rows page per_page)))
  = take (Z.to_nat per_page)
         (drop (Z.to_nat (page - 1) * Z.to_nat per_page) rows.*1).
Proof.
  intros Hpage Hpp. rewrite returned_ids_books. unfold paginate. cbn [items].
  rewrite !bool_decide_eq_false_2 by lia.
  rewrite fmap_take, fmap_drop. do 2 f_equal. nia.
Qed.

(** Paging loses nothing and repeats nothing.  With a page size of at least
    1, the ids listed on pages 1, 2, ..., k of GET /api/books, put one after
    the other, are the ids of all books, each once, as soon as k pages are
    enough to hold them ([per_page * k] is at least the number of books; the
    [pages] field is such a k) and [per_page * k] is an integer a query can
    bind, which keeps the limit and every offset of these k requests in
    range.  The same holds for GET /api/books-with-pagination. *)
Theorem pages_cover_all_books st per_page sort_by order (k : nat) :
  1 ≤ per_page →
  sqlite_int (per_page * Z.of_nat k) →
  Z.of_nat (size (books st)) ≤ per_page * Z.of_nat k →
  let sorted_pages :=
    concat (map (λ p, listed_ids
                        (get_books st (Z.of_nat p) per_page sort_by order))
                (seq 1 k)) in
  let plain_pages :=
    concat (map (λ p, listed_ids
                        (get_books_paginated st (Z.of_nat p) per_page))
                (seq 1 k)) in
  sorted_pages = (books_query st sort_by order).*1 ∧
  sorted_pages ≡ₚ (map_to_list (books st)).*1 ∧
  plain_pages = (all_rows (books st)).*1 ∧
  plain_pages ≡ₚ (map_to_list (books st)).*1 ∧
  NoDup sorted_pages ∧ NoDup plain_pages.
Proof.
  intros Hpp _ Hk. cbv zeta.
  assert (∀ rows : list (Z * Book.t),
            length rows = size (books st) →
            ∀ f : nat → outcome,
              (∀ p, (1 ≤ p)%nat →
                    listed_ids (f p) =
                      omap dict_id
                        (map (λ kb, book_to_dict st kb.1 kb.2)
                             (items (paginate rows (Z.of_nat p) per_page)))) →
              concat (map (λ p, listed_ids (f p)) (seq 1 k)) = rows.*1)
    as Hcover.
  { intros rows Hlen f Hf.
    rewrite <- seq_shift, map_map.
    erewrite map_ext_in.
    - rewrite (chunks_concat rows.*1 (Z.to_nat per_page) k).
      apply take_ge. rewrite length_fmap, Hlen. nia.
    - intros i _. cbn beta. rewrite Hf by lia.
      rewrite listed_ids_page by lia. do 3 f_equal. lia. }
  assert ((books_query st sort_by order).*1 ≡ₚ (map_to_list (books st)).*1)
    as Hperm.
  { unfold books_query, order_by, all_rows.
    repeat case_decide; by rewrite !merge_sort_Permutation. }
  assert ((all_rows (books st)).*1 ≡ₚ (map_to_list (books st)).*1) as Hperm'
    by (by unfold all_rows; rewrite merge_sort_Permutation).
  rewrite (Hcover (books_query st sort_by order)).
  2:{ apply length_books_query. }
  2:{ intros p _. unfold get_books, listed_ids, returned_ids. done. }
  rewrite (Hcover (all_rows (books st))).
  2:{ apply length_all_rows. }
  2:{ intros p _. unfold get_books_paginated, listed_ids, returned_ids.
      done. }
  split_and!; try done.
  - rewrite Hperm. apply NoDup_fst_map_to_list.
  - apply NoDup_all_rows.
Qed.

Lemma pages_cover_all_books_witness :
  concat (map (λ p, listed_ids (get_books seeded (Z.of_nat p) 3 "year" "desc"))
              (seq 1 3))
  ≡ₚ (map_to_list (books seeded)).*1.
Proof.
  apply (pages_cover_all_books seeded 3 "year" "desc" 3);
    [lia | unfold sqlite_int; lia |].
  assert (size (books seeded) = 8%nat) as -> by reflexivity. lia.
Defined.

(** On page [page] (at least 1) with page size [per_page] (at least 1),
    the page size and the page's offset being integers the query can bind,
    [has_next] says whether any book lies beyond this page, that is whether
    [page * per_page] is less than the number of books, and [has_prev]
    whether the page is not the first; [page] and [per_page] are echoed. *)
Theorem get_books_has_next st page per_page sort_by order :
  1 ≤ page → 1 ≤ per_page →
  sqlite_int per_page → sqlite_int ((page - 1) * per_page) →
  let n := Z.of_nat (size (books st)) in
  ∀ o, o = get_books st page per_page sort_by order
       ∨ o = get_books_paginated st page per_page →
  ∃ body,
    o = Response 200 body ∧
    field "has_next" body = Some (JBool (bool_decide (page * per_page < n))) ∧
    field "has_prev" body = Some (JBool (bool_decide (1 < page))) ∧
    field "page" body = Some (JVal (PInt page)) ∧
    field "per_page" body = Some (JVal (PInt per_page)).
Proof.
  intros Hpage Hpp _ _ n.
  assert (∀ rows : list (Z * Book.t),
            length rows = size (books st) →
            has_next (paginate rows page per_page)
              = bool_decide (page * per_page < n) ∧
            has_prev (paginate rows page per_page) = bool_decide (1 < page) ∧
            Part4.page (paginate rows page per_page) = page) as Hflags.
  { intros rows Hlen. unfold has_next, has_prev, pages, paginate.
    cbn [Part4.page Part4.per_page total].
    rewrite (bool_decide_eq_false_2 (page < 1)) by lia.
    rewrite (bool_decide_eq_false_2 (per_page < 1)) by lia.
    rewrite Hlen. fold n.
    pose proof (ceil_div_bounds n per_page ltac:(lia) Hpp) as Hceil.
    cbv zeta in Hceil. split_and!; [|apply bool_decide_ext; lia|done].
    apply bool_decide_ext. destruct (bool_decide (n = 0)); nia. }
  intros o [-> | ->].
  - destruct (Hflags (books_query st sort_by order)
                (length_books_query _ _ _)) as (Hn & Hp & Hpg).
    unfold get_books. eexists. split; [reflexivity|].
    cbn [field assoc]. repeat (rewrite decide_False by done).
    rewrite !decide_True by done. by rewrite Hn, Hp, Hpg.
  - destruct (Hflags (all_rows (books st)) (length_all_rows _))
      as (Hn & Hp & Hpg).
    unfold get_books_paginated. eexists. split; [reflexivity|].
    cbn [field assoc]. repeat (rewrite decide_False by done).
    rewrite !decide_True by done. by rewrite Hn, Hp, Hpg.
Qed.

Lemma get_books_has_next_witness :
  ∃ body,
    get_books seeded 2 3 "title" "asc" = Response 200 body ∧
    field "has_next" body = Some (JBool true) ∧
    field "has_prev" body = Some (JBool true).
Proof.
  assert (sqlite_int 3) as Hlimit by (unfold sqlite_int; lia).
  assert (sqlite_int ((2 - 1) * 3)) as Hoffset by (unfold sqlite_int; lia).
  destruct (get_books_has_next seeded 2 3 "title" "asc"
              ltac:(lia) ltac:(lia) Hlimit Hoffset _ (or_introl eq_refl))
    as (body & Hbody & Hnext & Hprev & _).
  exists body. split; [exact Hbody|]. split; [exact Hnext | exact Hprev].
Defined.

(** *** Order *)

Ltac eval_fields :=
  cbn [field assoc];
  repeat match goal with
         | |- context [decide (?a = ?b)] =>
             first [ rewrite (decide_True (P := a = b)) by reflexivity
                   | rewrite (decide_False (P := a = b)) by discriminate ]
         end.

Lemma sql_le_total (a b : pyval) : sql_le a b ∨ sql_le b a.
Proof.
  destruct a as [|x|s], b as [|y|t]; cbn; try tauto; [lia|].
  apply String.leb_total.
Qed.

Lemma Sorted_drop {A} (R : relation A) (l : list A) n :
  Sorted R l → Sorted R (drop n l).
Proof.
  revert l. induction n as [|n IH]; intros l Hl; [done|].
  destruct l as [|x l]; [done|]. cbn. apply IH. by inv Hl.
Qed.

Lemma Sorted_take {A} (R : relation A) (l : list A) n :
  Sorted R l → Sorted R (take n l).
Proof.
  revert l. induction n as [|n IH]; intros l Hl; [constructor|].
  destruct l as [|x l]; [done|]. cbn. inv Hl. constructor; [by apply IH|].
  destruct l as [|y l], n; cbn; try constructor.
  match goal with H : HdRel _ _ _ |- _ => by inv H end.
Qed.

Lemma Sorted_fmap_col {A B} (R : relation B) (f : A → B) (l : list A) :
  Sorted (λ x y, R (f x) (f y)) l → Sorted R (f <$> l).
Proof.
  induction 1 as [|x l Hl IH Hhd]; cbn; constructor; [done|].
  destruct Hhd; cbn; by constructor.
Qed.

Lemma order_by_Sorted col order (rows : list (Z * Book.t)) :
  (order = "asc" → Sorted (asc col) (order_by col order rows)) ∧
  (order ≠ "asc" → Sorted (desc col) (order_by col order rows)).
Proof.
  unfold order_by. split; intros Horder.
  - rewrite decide_True by done. apply Sorted_merge_sort.
    intros x y. apply sql_le_total.
  - rewrite decide_False by done. apply Sorted_merge_sort.
    intros x y. apply sql_le_total.
Qed.

Lemma books_query_column st sort_by order :
  sort_by ∈ allowed_sort_fields →
  books_query st sort_by order
    = order_by (sort_column sort_by) order (all_rows (books st)).
Proof.
  intros Hsort. unfold books_query.
  rewrite (decide_True (P := sort_by ∈ allowed_sort_fields)) by done.
  repeat (apply elem_of_cons in Hsort as [->|Hsort]); [done..|].
  by apply elem_of_nil in Hsort.
Qed.

Lemma get_books_sorted_query st sort_by order :
  get_books_sorted st sort_by order =
    let books := books_query st sort_by order in
    Response 200
      (JDict [("success", JBool true);
              ("count", JVal (PInt (Z.of_nat (length books))));
              ("sort_by", JVal (PStr sort_by));
              ("order", JVal (PStr order));
              ("books", JList (map (λ kb, book_to_dict st kb.1 kb.2) books))]).
Proof.
  unfold get_books_sorted, books_query. cbv zeta.
  destruct (decide (sort_by ∈ allowed_sort_fields)) as [Hin|Hout]; [done|].
  assert (sort_by ≠ "title" ∧ sort_by ≠ "year" ∧ sort_by ≠ "created_at")
    as (Ht & Hy & Hc).
  { split_and!; intros ->; apply Hout; unfold allowed_sort_fields;
      repeat ((by left) || right). }
  by rewrite !decide_False by done.
Qed.

Lemma listed_books_column st key (rows : list (Z * Book.t)) :
  key ∈ allowed_sort_fields →
  omap (dict_value key) (map (λ kb, book_to_dict st kb.1 kb.2) rows)
    = sort_column key <$> rows.
Proof.
  intros Hkey.
  repeat (apply elem_of_cons in Hkey as [->|Hkey]);
    [| | | |by apply elem_of_nil in Hkey];
    (induction rows as [|[k b] rows IH]; [done|]; cbn; by f_equal).
Qed.

(** Sorting works as asked.  For a [sort] value of the allow-list, the books
    GET /api/books puts on a page, and the books GET /api/books-with-sorting
    returns, come ordered by that field: non-decreasing when [order] is
    'asc', non-increasing for any other [order] (books without a value
    first, respectively last). *)
Theorem books_listed_in_order st page per_page sort_by order :
  sort_by ∈ allowed_sort_fields →
  ∀ o, o = get_books st page per_page sort_by order
       ∨ o = get_books_sorted st sort_by order →
  (order = "asc" → Sorted sql_le (listed "books" sort_by o)) ∧
  (order ≠ "asc" → Sorted (flip sql_le) (listed "books" sort_by o)).
Proof.
  intros Hsort o Ho.
  pose proof (order_by_Sorted (sort_column sort_by) order
                (all_rows (books st))) as [Hasc Hdesc].
  assert (∃ i n,
            listed "books" sort_by o
              = sort_column sort_by <$>
                  take n (drop i (books_query st sort_by order)))
    as (i & n & ->).
  { destruct Ho as [-> | ->].
    - eexists _, _. unfold get_books, listed. cbn [field assoc].
      repeat (rewrite decide_False by done). rewrite decide_True by done.
      rewrite listed_books_column by done. reflexivity.
    - exists 0%nat, (length (books_query st sort_by order)).
      rewrite get_books_sorted_query. unfold listed. cbn [field assoc].
      repeat (rewrite decide_False by done). rewrite decide_True by done.
      rewrite listed_books_column by done. cbn [drop].
      by rewrite take_ge. }
  rewrite books_query_column by done.
  split; intros Horder; apply Sorted_fmap_col, Sorted_take, Sorted_drop.
  - by apply Hasc.
  - by apply Hdesc.
Qed.

Lemma books_listed_in_order_witness :
  Sorted sql_le (listed "books" "year" (get_books seeded 1 5 "year" "asc")) ∧
  Sorted (flip sql_le)
         (listed "books" "title" (get_books_sorted seeded "title" "desc")).
Proof.
  split.
  - apply (books_listed_in_order seeded 1 5 "year" "asc");
      [unfold allowed_sort_fields; do 2 right; left | by left | reflexivity].
  - apply (books_listed_in_order seeded 1 5 "title" "desc");
      [unfold allowed_sort_fields; right; left | by right | discriminate].
Defined.

(** GET /api/books-with-sorting returns every book once, with [count] their
    number, and echoes [sort] and [order] as they were sent, recognised or
    not; its list is the list GET /api/books gives on page 1 when the page
    is large enough to hold every book (and its size an integer the query
    can bind). *)
Theorem get_books_sorted_complete st sort_by order :
  ∃ body,
    get_books_sorted st sort_by order = Response 200 body ∧
    field "count" body = Some (JVal (PInt (Z.of_nat (size (books st))))) ∧
    field "sort_by" body = Some (JVal (PStr sort_by)) ∧
    field "order" body = Some (JVal (PStr order)) ∧
    returned_ids body ≡ₚ (map_to_list (books st)).*1 ∧
    ∀ per_page, 1 ≤ per_page → sqlite_int per_page →
      Z.of_nat (size (books st)) ≤ per_page →
      ∃ body', get_books st 1 per_page sort_by order = Response 200 body' ∧
               field "books" body' = field "books" body.
Proof.
  rewrite get_books_sorted_query. cbv zeta. eexists.
  split; [reflexivity|]. cbn [field assoc].
  repeat (rewrite decide_False by done). rewrite !decide_True by done.
  rewrite length_books_query. split_and!; try done.
  - unfold returned_ids. cbn [field assoc].
    repeat (rewrite decide_False by done). rewrite !decide_True by done.
    rewrite returned_ids_books.
    unfold books_query, order_by, all_rows.
    repeat case_decide; by rewrite !merge_sort_Permutation.
  - intros per_page Hpp _ Hn. unfold get_books. eexists.
    split; [reflexivity|]. eval_fields.
    unfold paginate. cbn [items].
    rewrite (bool_decide_eq_false_2 (per_page < 1)) by lia.
    rewrite (bool_decide_eq_false_2 (1 < 1)) by lia.
    replace (Z.to_nat ((1 - 1) * per_page)) with 0%nat by lia.
    rewrite drop_0, take_ge; [done|]. rewrite length_books_query. lia.
Qed.

Lemma get_books_sorted_complete_witness :
  ∃ body body',
    get_books_sorted seeded "rating" "asc" = Response 200 body ∧
    get_books seeded 1 8 "rating" "asc" = Response 200 body' ∧
    field "books" body' = field "books" body.
Proof.
  destruct (get_books_sorted_complete seeded "rating" "asc")
    as (body & Hbody & _ & _ & _ & _ & Hpage).
  assert (size (books seeded) = 8%nat) as Hs by reflexivity.
  destruct (Hpage 8 ltac:(lia) ltac:(unfold sqlite_int; lia)
              ltac:(rewrite Hs; lia))
    as (body' & Hbody' & Heq).
  by exists body, body'.
Defined.

End part4_reads.

(** ** Part 3: the remaining views *)

Section part3.
Import Part3.
Implicit Types (st : db) (id k : Z) (form : gmap string string).

Lemma unique_insert {A} (f : A → string) (m : gmap Z A) id x :
  (∀ k1 k2 a1 a2, m !! k1 = Some a1 → m !! k2 = Some a2 →
                  f a1 = f a2 → k1 = k2) →
  (∀ k a, m !! k = Some a → k ≠ id → f a ≠ f x) →
  ∀ k1 k2 a1 a2, <[id := x]> m !! k1 = Some a1 → <[id := x]> m !! k2 = Some a2 →
                 f a1 = f a2 → k1 = k2.
Proof.
  intros Huniq Hnew k1 k2 a1 a2 Hk1 Hk2 Heq.
  destruct (decide (k1 = id)) as [->|Hne1], (decide (k2 = id)) as [->|Hne2];
    [done|..].
  - rewrite lookup_insert_eq in Hk1. rewrite lookup_insert_ne in Hk2 by done.
    simplify_eq. by destruct (Hnew k2 a2 Hk2 Hne2).
  - rewrite lookup_insert_eq in Hk2. rewrite lookup_insert_ne in Hk1 by done.
    simplify_eq. by destruct (Hnew k1 a1 Hk1 Hne1).
  - rewrite lookup_insert_ne in Hk1, Hk2 by done. eauto.
Qed.

Lemma unique_delete {A} (f : A → string) (m : gmap Z A) id :
  (∀ k1 k2 a1 a2, m !! k1 = Some a1 → m !! k2 = Some a2 →
                  f a1 = f a2 → k1 = k2) →
  ∀ k1 k2 a1 a2, delete id m !! k1 = Some a1 → delete id m !! k2 = Some a2 →
                 f a1 = f a2 → k1 = k2.
Proof.
  intros Huniq k1 k2 a1 a2. rewrite !lookup_delete_Some.
  intros [_ Hk1] [_ Hk2]. eauto.
Qed.

Lemma student_email_taken_false (ss : gmap Z Student.t) e :
  student_email_taken ss e = false ↔
  ∀ k s, ss !! k = Some s → Student.email s ≠ e.
Proof.
  unfold student_email_taken. rewrite <- not_true_iff_false.
  rewrite existsb_map_to_list. split.
  - intros Hnone k s Hk He. apply Hnone. exists k, s. split; [done|].
    by apply bool_decide_eq_true.
  - intros Hall (k & s & Hk & He). apply bool_decide_eq_true in He.
    by eapply Hall.
Qed.

Lemma teacher_email_taken_false (ts : gmap Z Teacher.t) e :
  teacher_email_taken ts e = false ↔
  ∀ k t, ts !! k = Some t → Teacher.email t ≠ e.
Proof.
  unfold teacher_email_taken. rewrite <- not_true_iff_false.
  rewrite existsb_map_to_list. split.
  - intros Hnone k t Hk He. apply Hnone. exists k, t. split; [done|].
    by apply bool_decide_eq_true.
  - intros Hall (k & t & Hk & He). apply bool_decide_eq_true in He.
    by eapply Hall.
Qed.

Lemma student_email_held_true (ss : gmap Z Student.t) id e :
  student_email_held ss id e = true ↔
  ∃ k s, ss !! k = Some s ∧ k ≠ id ∧ Student.email s = e.
Proof.
  unfold student_email_held. rewrite existsb_map_to_list.
  split; intros (k & s & Hk & He); exists k, s; (split; [done|]).
  - by apply bool_decide_eq_true in He.
  - by apply bool_decide_eq_true.
Qed.

Lemma teacher_email_held_true (ts : gmap Z Teacher.t) id e :
  teacher_email_held ts id e = true ↔
  ∃ k t, ts !! k = Some t ∧ k ≠ id ∧ Teacher.email t = e.
Proof.
  unfold teacher_email_held. rewrite existsb_map_to_list.
  split; intros (k & t & Hk & He); exists k, t; (split; [done|]).
  - by apply bool_decide_eq_true in He.
  - by apply bool_decide_eq_true.
Qed.

Lemma flush_student_unique (ss ss' : gmap Z Student.t) id old new :
  (∀ k1 k2 s1 s2, ss !! k1 = Some s1 → ss !! k2 = Some s2 →
                  Student.email s1 = Student.email s2 → k1 = k2) →
  ss !! id = Some old →
  flush_student ss id old new = inr ss' →
  ∀ k1 k2 s1 s2, ss' !! k1 = Some s1 → ss' !! k2 = Some s2 →
                 Student.email s1 = Student.email s2 → k1 = k2.
Proof.
  intros Huniq Hold. unfold flush_student.
  destruct (bool_decide _ && _) eqn:Hchk; [done|]. intros [= <-].
  apply unique_insert; [done|]. intros k s Hk Hne He.
  apply andb_false_iff in Hchk as [Hsame|Hfree].
  - apply bool_decide_eq_false in Hsame. apply Hne.
    apply (Huniq k id s old); [done..|].
    destruct (decide (Student.email new = Student.email old)); [congruence|].
    by destruct Hsame.
  - apply not_true_iff_false in Hfree. apply Hfree.
    apply student_email_held_true. eauto.
Qed.

Lemma flush_teacher_unique (ts ts' : gmap Z Teacher.t) id old new :
  (∀ k1 k2 t1 t2, ts !! k1 = Some t1 → ts !! k2 = Some t2 →
                  Teacher.email t1 = Teacher.email t2 → k1 = k2) →
  ts !! id = Some old →
  flush_teacher ts id old new = inr ts' →
  ∀ k1 k2 t1 t2, ts' !! k1 = Some t1 → ts' !! k2 = Some t2 →
                 Teacher.email t1 = Teacher.email t2 → k1 = k2.
Proof.
  intros Huniq Hold. unfold flush_teacher.
  destruct (bool_decide _ && _) eqn:Hchk; [done|]. intros [= <-].
  apply unique_insert; [done|]. intros k t Hk Hne He.
  apply andb_false_iff in Hchk as [Hsame|Hfree].
  - apply bool_decide_eq_false in Hsame. apply Hne.
    apply (Huniq k id t old); [done..|].
    destruct (decide (Teacher.email new = Teacher.email old)); [congruence|].
    by destruct Hsame.
  - apply not_true_iff_false in Hfree. apply Hfree.
    apply teacher_email_held_true. eauto.
Qed.

(** No view leaves two students, or two teachers, with one email: if the
    emails of each table are pairwise different before a request to any of
    the add, edit and delete views, they are after it, whatever was
    submitted. *)
Theorem emails_unique_preserved st :
  emails_unique st →
  (∀ method form, emails_unique (add_student st method form).2) ∧
  (∀ method form, emails_unique (add_teacher st method form).2) ∧
  (∀ id method form, emails_unique (edit_student st id method form).2) ∧
  (∀ id method form, emails_unique (edit_teacher st id method form).2) ∧
  (∀ id, emails_unique (delete_student st id).2) ∧
  (∀ id, emails_unique (delete_teacher st id).2) ∧
  (∀ method form, emails_unique (add_course st method form).2).
Proof.
  intros [Hs Ht]. split_and!.
  - intros method form. unfold add_student.
    destruct (decide _) as [Hpost|]; [|done].
    destruct (form !! "name") as [name|]; [|done].
    destruct (form !! "email") as [email|]; [|done].
    destruct (form !! "course_id") as [course_id|]; [|done].
    unfold insert_student. cbn [Student.email].
    destruct (student_email_taken _ _) eqn:Htaken; [done|].
    split; [|done]. cbn [snd students].
    apply unique_insert; [done|]. intros k s Hk _. cbn.
    by eapply student_email_taken_false.
  - intros method form. unfold add_teacher.
    destruct (decide _) as [Hpost|]; [|done].
    destruct (form !! "name") as [name|]; [|done].
    destruct (form !! "email") as [email|]; [|done].
    destruct (form !! "course_id") as [course_id|]; [|done].
    unfold insert_teacher. cbn [Teacher.email].
    destruct (teacher_email_taken _ _) eqn:Htaken; [done|].
    split; [done|]. cbn [snd teachers].
    apply unique_insert; [done|]. intros k t Hk _. cbn.
    by eapply teacher_email_taken_false.
  - intros id method form. unfold edit_student.
    destruct (students st !! id) as [old|] eqn:Hold; [|done].
    destruct (decide _) as [Hpost|]; [|done].
    destruct (form !! "name") as [name|]; [|done].
    destruct (form !! "email") as [email|]; [|done].
    destruct (form !! "course_id") as [course_id|]; [|done].
    destruct (flush_student _ _ _ _) as [e|ss] eqn:Hflush; [done|].
    split; [|done]. cbn [snd students]. by eapply flush_student_unique.
  - intros id method form. unfold edit_teacher.
    destruct (teachers st !! id) as [old|] eqn:Hold; [|done].
    destruct (decide _) as [Hpost|]; [|done].
    destruct (form !! "name") as [name|]; [|done].
    destruct (form !! "email") as [email|]; [|done].
    destruct (form !! "course_id") as [course_id|]; [|done].
    destruct (flush_teacher _ _ _ _) as [e|ts] eqn:Hflush; [done|].
    split; [done|]. cbn [snd teachers]. by eapply flush_teacher_unique.
  - intros id. unfold delete_student.
    destruct (students st !! id); [|done].
    split; [|done]. cbn [snd students]. by apply unique_delete.
  - intros id. unfold delete_teacher.
    destruct (teachers st !! id); [|done].
    split; [done|]. cbn [snd teachers]. by apply unique_delete.
  - intros method form. unfold add_course.
    destruct (decide _) as [Hpost|]; [|done]. by destruct (form !! "name").
Qed.

Lemma seeded_emails_unique : emails_unique seeded.
Proof.
  assert (map_Forall (λ k1 s1,
            map_Forall (λ k2 s2,
              Student.email s1 = Student.email s2 → k1 = k2)
              (students seeded)) (students seeded)) as Hs
    by (apply (bool_decide_unpack _); vm_compute; exact I).
  assert (map_Forall (λ k1 t1,
            map_Forall (λ k2 t2,
              Teacher.email t1 = Teacher.email t2 → k1 = k2)
              (teachers seeded)) (teachers seeded)) as Ht
    by (apply (bool_decide_unpack _); vm_compute; exact I).
  split.
  - intros k1 k2 s1 s2 H1 H2. exact (Hs k1 s1 H1 k2 s2 H2).
  - intros k1 k2 t1 t2 H1 H2. exact (Ht k1 t1 H1 k2 t2 H2).
Qed.

Lemma emails_unique_preserved_witness :
  emails_unique
    (edit_student seeded 2 "POST"
       {[ "name" := "Bob Johnson"; "email" := "alice@student.com";
          "course_id" := "2" ]}).2 ∧
  emails_unique (delete_teacher seeded 3).2.
Proof.
  destruct (emails_unique_preserved seeded seeded_emails_unique)
    as (_ & _ & Hedit & _ & _ & Hdel & _).
  split; [apply Hedit | apply Hdel].
Defined.

(** [/add] with the three fields filled in and an email no student has
    creates the student under a key no student had and redirects to the
    list; nothing else in the store changes.  Nothing is asked of
    [course_id]: the view stores it without looking for the course. *)
Theorem add_student_inserts st form name email course_id :
  form !! "name" = Some name →
  form !! "email" = Some email →
  form !! "course_id" = Some course_id →
  (∀ k s, students st !! k = Some s → Student.email s ≠ email) →
  ∃ id,
    students st !! id = None ∧
    add_student st "POST" form =
      (Redirected "index" ("Student added successfully!", "success"),
       mkdb (courses st)
            (<[id := Student.mk name email course_id]> (students st))
            (teachers st)).
Proof.
  intros Hname Hemail Hcourse Hfree. unfold add_student.
  rewrite decide_True by done. rewrite Hname, Hemail, Hcourse.
  unfold insert_student. cbn [Student.email].
  rewrite (proj2 (student_email_taken_false _ _) Hfree).
  exists (next_id (students st)). split; [apply next_id_fresh|done].
Qed.

Lemma add_student_inserts_witness :
  ∃ id,
    students seeded !! id = None ∧
    students
      (add_student seeded "POST"
         {[ "name" := "Eve Adams"; "email" := "eve@student.com";
            "course_id" := "999" ]}).2 !! id
    = Some (Student.mk "Eve Adams" "eve@student.com" "999") ∧
    courses seeded !! 999 = None.
Proof.
  assert (∀ k s, students seeded !! k = Some s →
                 Student.email s ≠ "eve@student.com") as Hfree
    by (apply student_email_taken_false; reflexivity).
  set (form := ({[ "name" := "Eve Adams"; "email" := "eve@student.com";
                   "course_id" := "999" ]} : gmap string string)).
  assert (form !! "name" = Some "Eve Adams") as Hname by reflexivity.
  assert (form !! "email" = Some "eve@student.com") as Hemail
    by reflexivity.
  assert (form !! "course_id" = Some "999") as Hcourse by reflexivity.
  destruct (add_student_inserts seeded form _ _ _ Hname Hemail Hcourse Hfree)
    as (id & Hid & Hadd).
  exists id. split; [exact Hid|]. rewrite Hadd. cbn [snd students].
  split; [apply lookup_insert_eq | reflexivity].
Defined.

(** [/edit/<id>]: an id no student has (an integer the lookup can bind)
    aborts with 404, whatever the method and the form; a POST that keeps the student's email, or takes one no
    other student has, rewrites the row under the same id and redirects to
    the list; a POST that takes another student's email raises
    [IntegrityError].  Only the first kind of POST changes the store. *)
Theorem edit_student_outcomes st id method form :
  (sqlite_int id → students st !! id = None →
   edit_student st id method form = (Aborted 404, st)) ∧
  (∀ old name email course_id,
     students st !! id = Some old →
     form !! "name" = Some name →
     form !! "email" = Some email →
     form !! "course_id" = Some course_id →
     (∀ k s, students st !! k = Some s → k ≠ id → Student.email s ≠ email) →
     edit_student st id "POST" form =
       (Returned (Redirected "index" ("Student updated!", "success")),
        mkdb (courses st)
             (<[id := Student.mk name email course_id]> (students st))
             (teachers st))) ∧
  (∀ old name email course_id k other,
     students st !! id = Some old →
     form !! "name" = Some name →
     form !! "email" = Some email →
     form !! "course_id" = Some course_id →
     emails_unique st →
     students st !! k = Some other → k ≠ id → Student.email other = email →
     edit_student st id "POST" form = (Returned (Raised IntegrityError), st)).
Proof.
  split_and!.
  - intros _ Hid. unfold edit_student. by rewrite Hid.
  - intros old name email course_id Hold Hname Hemail Hcourse Hfree.
    unfold edit_student. rewrite Hold, decide_True by done.
    rewrite Hname, Hemail, Hcourse. unfold flush_student.
    cbn [Student.email].
    assert (student_email_held (students st) id email = false) as ->.
    { apply not_true_iff_false. rewrite student_email_held_true.
      intros (k & s & Hk & Hne & He). by eapply Hfree. }
    by rewrite andb_false_r.
  - intros old name email course_id k other Hold Hname Hemail Hcourse
           [Huniq _] Hk Hne He.
    unfold edit_student. rewrite Hold, decide_True by done.
    rewrite Hname, Hemail, Hcourse. unfold flush_student.
    cbn [Student.email].
    rewrite bool_decide_eq_true_2.
    + assert (student_email_held (students st) id email = true) as ->;
        [|done].
      apply student_email_held_true. eauto.
    + intros Hsame. apply Hne. apply (Huniq k id other old); congruence.
Qed.

Lemma edit_student_outcomes_witness :
  let keep : gmap string string :=
    {[ "name" := "Robert Johnson"; "email" := "bob@student.com";
       "course_id" := "3" ]} in
  let clash : gmap string string :=
    {[ "name" := "Bob Johnson"; "email" := "alice@student.com";
       "course_id" := "2" ]} in
  edit_student seeded 9 "POST" keep = (Aborted 404, seeded) ∧
  students (edit_student seeded 2 "POST" keep).2 !! 2
    = Some (Student.mk "Robert Johnson" "bob@student.com" "3") ∧
  edit_student seeded 2 "POST" clash
    = (Returned (Raised IntegrityError), seeded).
Proof.
  cbv zeta. split_and!.
  - apply (proj1 (edit_student_outcomes seeded 9 "POST" _));
      [unfold sqlite_int; lia | reflexivity].
  - erewrite (proj1 (proj2 (edit_student_outcomes seeded 2 "POST" _))
                (Student.mk "Bob Johnson" "bob@student.com" "2")
                "Robert Johnson" "bob@student.com" "3");
      [apply lookup_insert_eq | reflexivity..|].
    intros k s Hk Hne He. apply Hne.
    apply (proj1 seeded_emails_unique k 2 s
             (Student.mk "Bob Johnson" "bob@student.com" "2"));
      [exact Hk | reflexivity | exact He].
  - apply (proj2 (proj2 (edit_student_outcomes seeded 2 "POST" _))
             (Student.mk "Bob Johnson" "bob@student.com" "2")
             "Bob Johnson" "alice@student.com" "2" 1
             (Student.mk "Alice Smith" "alice@student.com" "1"));
      [reflexivity.. | apply seeded_emails_unique | reflexivity | lia
       | reflexivity].
Defined.

(** [/delete/<id>] removes the student with that id and nobody else (404
    when there is none and the id is an integer the lookup can bind); in
    particular deleting the student [/add] has just
    created gives back the store as it was before the add. *)
Theorem delete_student_removes st id :
  (sqlite_int id → students st !! id = None →
   delete_student st id = (Aborted 404, st)) ∧
  (∀ s, students st !! id = Some s →
     ∃ st',
       delete_student st id =
         (Returned (Redirected "index" ("Student deleted!", "danger")), st') ∧
       students st' !! id = None ∧
       (∀ k, k ≠ id → students st' !! k = students st !! k) ∧
       courses st' = courses st ∧ teachers st' = teachers st ∧
       delete_student st' id = (Aborted 404, st')) ∧
  (∀ form st',
     add_student st "POST" form =
       (Redirected "index" ("Student added successfully!", "success"), st') →
     ∃ new, students st !! new = None ∧ is_Some (students st' !! new) ∧
            delete_student st' new =
              (Returned (Redirected "index" ("Student deleted!", "danger")),
               st)).
Proof.
  split_and!.
  - intros _ Hid. unfold delete_student. by rewrite Hid.
  - intros s Hid. unfold delete_student at 1. rewrite Hid.
    eexists. split; [reflexivity|]. cbn [students courses teachers].
    split; [apply lookup_delete_eq|].
    split; [by intros; apply lookup_delete_ne|].
    split; [done|]. split; [done|].
    unfold delete_student. cbn [students]. by rewrite lookup_delete_eq.
  - intros form st'. unfold add_student.
    rewrite decide_True by done.
    destruct (form !! "name") as [name|]; [|done].
    destruct (form !! "email") as [email|]; [|done].
    destruct (form !! "course_id") as [course_id|]; [|done].
    unfold insert_student. destruct (student_email_taken _ _); [done|].
    intros [= <-]. exists (next_id (students st)).
    split; [apply next_id_fresh|]. cbn [students].
    split; [by rewrite lookup_insert_eq|].
    unfold delete_student. cbn [students courses teachers].
    rewrite lookup_insert_eq.
    rewrite delete_insert_id by apply next_id_fresh. by destruct st.
Qed.

Lemma delete_student_removes_witness :
  delete_student seeded 40 = (Aborted 404, seeded) ∧
  (∃ st', (delete_student seeded 4).2 = st' ∧
          students st' !! 4 = None ∧
          students st' !! 1 = students seeded !! 1 ∧
          delete_student st' 4 = (Aborted 404, st')) ∧
  ∃ st' new,
    add_student seeded "POST"
      {[ "name" := "Eve Adams"; "email" := "eve@student.com";
         "course_id" := "1" ]}
      = (Redirected "index" ("Student added successfully!", "success"), st') ∧
    (delete_student st' new).2 = seeded.
Proof.
  assert (sqlite_int 40) as Hid by (unfold sqlite_int; lia).
  split; [exact (proj1 (delete_student_removes seeded 40) Hid eq_refl)|].
  split; last first.
  { assert (∃ st',
              add_student seeded "POST"
                {[ "name" := "Eve Adams"; "email" := "eve@student.com";
                   "course_id" := "1" ]}
              = (Redirected "index"
                   ("Student added successfully!", "success"), st'))
      as [st' Hadd] by (eexists; vm_compute; reflexivity).
    destruct (proj2 (proj2 (delete_student_removes seeded 0)) _ _ Hadd)
      as (new & _ & _ & Hdel).
    exists st', new. split; [exact Hadd|]. by rewrite Hdel. }
  destruct (proj1 (proj2 (delete_student_removes seeded 4))
              (Student.mk "Diana Wilson" "diana@student.com" "3") eq_refl)
    as (st' & Hdel & Hgone & Hrest & _ & _ & Hagain).
  exists st'. rewrite Hdel. split; [done|]. split; [exact Hgone|].
  split; [apply Hrest; lia | exact Hagain].
Defined.

(** [/add-course] checks nothing beyond the presence of [name]: every POST
    that carries a name, be it empty or the name of a course already there,
    adds one course under a new key and redirects to the course list;
    students and teachers are untouched. *)
Theorem add_course_always_adds st form name :
  form !! "name" = Some name →
  ∃ id st',
    add_course st "POST" form =
      (Returned (Redirected "courses" ("Course added!", "success")), st') ∧
    courses st !! id = None ∧
    courses st' !! id
      = Some (Course.mk name (default "" (form !! "description"))) ∧
    (∀ k, k ≠ id → courses st' !! k = courses st !! k) ∧
    size (courses st') = S (size (courses st)) ∧
    students st' = students st ∧ teachers st' = teachers st.
Proof.
  intros Hname. unfold add_course.
  rewrite decide_True by done. rewrite Hname.
  eexists _, _. split; [reflexivity|]. cbn [courses students teachers].
  split; [apply next_id_fresh|].
  split; [apply lookup_insert_eq|].
  split; [by intros; apply lookup_insert_ne|].
  split; [|done]. apply map_size_insert_None, next_id_fresh.
Qed.

Lemma add_course_always_adds_witness :
  ∃ id st',
    add_course seeded "POST" {[ "name" := "Python Basics" ]} =
      (Returned (Redirected "courses" ("Course added!", "success")), st') ∧
    courses st' !! id = Some (Course.mk "Python Basics" "") ∧
    courses st' !! 1
      = Some (Course.mk "Python Basics"
                        "Learn Python programming fundamentals") ∧
    id ≠ 1.
Proof.
  set (form := ({[ "name" := "Python Basics" ]} : gmap string string)).
  assert (form !! "name" = Some "Python Basics") as Hname by reflexivity.
  destruct (add_course_always_adds seeded form _ Hname)
    as (id & st' & Hadd & Hfresh & Hrow & Hrest & _).
  exists id, st'. split; [exact Hadd|]. split; [exact Hrow|].
  assert (id ≠ 1) as Hne by (intros ->; discriminate Hfresh).
  split; [|exact Hne]. rewrite Hrest by (intros Heq; by apply Hne).
  reflexivity.
Defined.

(** [/edit-teacher/<id>]: an id no teacher has (an integer the lookup can
    bind) aborts with 404.  A POST with
    name, email and course_id whose email no other teacher has rewrites the
    row under the same id; the specialization is taken from the form when
    the field is there and is set to the empty string when it is not,
    whatever it was before. *)
Theorem edit_teacher_outcomes st id method form :
  (sqlite_int id → teachers st !! id = None →
   edit_teacher st id method form = (Aborted 404, st)) ∧
  (∀ old name email course_id,
     teachers st !! id = Some old →
     form !! "name" = Some name →
     form !! "email" = Some email →
     form !! "course_id" = Some course_id →
     (∀ k t, teachers st !! k = Some t → k ≠ id → Teacher.email t ≠ email) →
     ∃ row,
       edit_teacher st id "POST" form =
         (Returned (Redirected "teachers" ("Teacher updated!", "success")),
          mkdb (courses st) (students st) (<[id := row]> (teachers st))) ∧
       Teacher.name row = name ∧ Teacher.email row = email ∧
       Teacher.course_id row = course_id ∧
       (∀ s, form !! "specialization" = Some s →
             Teacher.specialization row = s) ∧
       (form !! "specialization" = None → Teacher.specialization row = "")).
Proof.
  split.
  - intros _ Hid. unfold edit_teacher. by rewrite Hid.
  - intros old name email course_id Hold Hname Hemail Hcourse Hfree.
    unfold edit_teacher. rewrite Hold, decide_True by done.
    rewrite Hname, Hemail, Hcourse. unfold flush_teacher.
    cbn [Teacher.email].
    assert (teacher_email_held (teachers st) id email = false) as ->.
    { apply not_true_iff_false. rewrite teacher_email_held_true.
      intros (k & t & Hk & Hne & He). by eapply Hfree. }
    rewrite andb_false_r. eexists. split; [reflexivity|].
    cbn. split_and!; try done.
    + by intros s ->.
    + by intros ->.
Qed.

Lemma edit_teacher_outcomes_witness :
  edit_teacher seeded 30 "GET" ∅ = (Aborted 404, seeded) ∧
  ∃ row,
    teachers
      (edit_teacher seeded 1 "POST"
         {[ "name" := "Dr. Sarah Johnson"; "email" := "sarah@school.com";
            "course_id" := "2" ]}).2 !! 1 = Some row ∧
    Teacher.specialization row = "" ∧
    (Teacher.specialization <$> teachers seeded !! 1)
      = Some "Python Programming".
Proof.
  assert (sqlite_int 30) as Hid by (unfold sqlite_int; lia).
  split; [exact (proj1 (edit_teacher_outcomes seeded 30 "GET" ∅) Hid eq_refl)|].
  set (form := ({[ "name" := "Dr. Sarah Johnson";
                   "email" := "sarah@school.com";
                   "course_id" := "2" ]} : gmap string string)).
  assert (form !! "name" = Some "Dr. Sarah Johnson") as Hname
    by reflexivity.
  assert (form !! "email" = Some "sarah@school.com") as Hemail
    by reflexivity.
  assert (form !! "course_id" = Some "2") as Hcourse by reflexivity.
  assert (form !! "specialization" = None) as Hspec by reflexivity.
  assert (teachers seeded !! 1
          = Some (Teacher.mk "Dr. Sarah Johnson" "sarah@school.com"
                             "Python Programming" "1")) as Hold
    by reflexivity.
  assert (∀ k t, teachers seeded !! k = Some t → k ≠ 1 →
                 Teacher.email t ≠ "sarah@school.com") as Hfree.
  { intros k t Hk Hne He. apply Hne.
    apply (proj2 seeded_emails_unique k 1 t _ Hk Hold). exact He. }
  destruct (proj2 (edit_teacher_outcomes seeded 1 "POST" form)
              _ _ _ _ Hold Hname Hemail Hcourse Hfree)
    as (row & Hedit & _ & _ & _ & _ & Hblank).
  exists row. fold form. rewrite Hedit. cbn [snd teachers].
  split; [apply lookup_insert_eq|]. split; [exact (Hblank Hspec)|].
  by rewrite Hold.
Defined.

End part3.

(** ** Part 4: seeding *)

Section part4_seeding.
Import Part4.

Example init_db_empty now :
  init_db (mkdb ∅ ∅) (λ _, now)
    = Seeded (mkdb sample_authors (sample_books now)).
Proof.
  unfold init_db. cbn [authors books].
  rewrite !bool_decide_eq_true_2 by apply map_size_empty.
  vm_compute. reflexivity.
Qed.

Lemma add_all_authors_nonempty (au au' : gmap Z Author.t) rows :
  add_all_authors au rows = inr au' → au ≠ ∅ ∨ rows ≠ [] → au' ≠ ∅.
Proof.
  revert au. induction rows as [|a rows IH]; intros au; cbn.
  - intros [= <-] [?|?]; done.
  - unfold insert_author. case_bool_decide; [done|].
    intros Hrest _. apply (IH _ Hrest). left.
    apply (insert_non_empty (M := gmap Z)).
Qed.

Lemma add_all_books_nonempty (bs bs' : gmap Z Book.t) rows :
  add_all_books bs rows = inr bs' → bs ≠ ∅ ∨ rows ≠ [] → bs' ≠ ∅.
Proof.
  revert bs. induction rows as [|b rows IH]; intros bs; cbn.
  - intros [= <-] [?|?]; done.
  - destruct (insert_book bs b) as [e|[id bs1]] eqn:Hinsert; [done|].
    apply insert_book_inr in Hinsert as (_ & -> & _).
    intros Hrest _. apply (IH _ Hrest). left.
    apply (insert_non_empty (M := gmap Z)).
Qed.

Lemma build_sample_books_length au now i specs rows :
  build_sample_books au now i specs = inr rows → length rows = length specs.
Proof.
  revert i rows. induction specs as [|[[[title name] year] isbn] specs IH];
    intros i rows; cbn.
  - by intros [= <-].
  - destruct (author_id_by_name au name); [|done].
    destruct (build_sample_books au now (S i) specs) as [missing|rows'] eqn:Hrest;
      [done|].
    intros [= <-]. cbn. f_equal. by eapply IH.
Qed.

(** [init_db] fills a table only when it is empty, and once it has run
    through, running it again changes nothing: a table that holds a row is
    left exactly as it is, and after a run that did not raise both tables
    hold rows, so every later run returns the same store. *)
Theorem init_db_seeds_once st now st' :
  init_db st now = Seeded st' →
  (authors st ≠ ∅ → authors st' = authors st) ∧
  (books st ≠ ∅ → books st' = books st) ∧
  authors st' ≠ ∅ ∧ books st' ≠ ∅ ∧
  ∀ later, init_db st' later = Seeded st'.
Proof.
  unfold init_db at 1. intros Hinit.
  assert ((authors st ≠ ∅ → authors st' = authors st) ∧
          (books st ≠ ∅ → books st' = books st) ∧
          authors st' ≠ ∅ ∧ books st' ≠ ∅) as (Hau & Hbs & Hau' & Hbs').
  { revert Hinit. case_bool_decide as Hna.
    - destruct (add_all_authors _ _) as [e|au] eqn:Hadd; [done|].
      apply add_all_authors_nonempty in Hadd; [|by right].
      apply map_size_empty_iff in Hna.
      case_bool_decide as Hnb.
      + destruct (build_sample_books _ _ _ _) as [missing|rows] eqn:Hrows;
          [done|].
        apply build_sample_books_length in Hrows.
        destruct (add_all_books _ _) as [e|bs] eqn:Haddb; [done|].
        apply add_all_books_nonempty in Haddb;
          [|by right; destruct rows].
        apply map_size_empty_iff in Hnb. intros [= <-]. by cbn.
      + apply map_size_non_empty_iff in Hnb. intros [= <-]. by cbn.
    - apply map_size_non_empty_iff in Hna.
      case_bool_decide as Hnb.
      + destruct (build_sample_books _ _ _ _) as [missing|rows] eqn:Hrows;
          [done|].
        apply build_sample_books_length in Hrows.
        destruct (add_all_books _ _) as [e|bs] eqn:Haddb; [done|].
        apply add_all_books_nonempty in Haddb;
          [|by right; destruct rows].
        apply map_size_empty_iff in Hnb. intros [= <-]. by cbn.
      + apply map_size_non_empty_iff in Hnb. intros [= <-]. by cbn. }
  split_and!; try done.
  intros later. unfold init_db.
  rewrite !bool_decide_eq_false_2 by by apply map_size_non_empty_iff.
  by destruct st'.
Qed.

Lemma init_db_seeds_once_witness :
  ∃ st', init_db (mkdb sample_authors ∅) (λ _, "2024-01-01T00:00:00")
           = Seeded st' ∧
         authors st' = sample_authors ∧
         init_db st' (λ _, "2025-01-01T00:00:00") = Seeded st'.
Proof.
  assert (∃ st', init_db (mkdb sample_authors ∅)
                         (λ _, "2024-01-01T00:00:00")
                 = Seeded st') as [st' Hinit]
    by (eexists; vm_compute; reflexivity).
  exists st'. split; [exact Hinit|].
  destruct (init_db_seeds_once _ _ _ Hinit) as (Hau & _ & _ & _ & Hagain).
  split; [|apply Hagain].
  apply Hau. cbn [authors]. intros Hempty.
  apply (f_equal (λ m : gmap Z Author.t, m !! 1)) in Hempty.
  discriminate Hempty.
Defined.

End part4_seeding.
